(** * gen_jct_vc: generation of the JCT-VC / JVT conformance test suites

    A shallow embedding of [scripts/gen_jct_vc.py] and the properties of
    its link extractor, manifest builder, artifact locator and checksum
    extractor.

    Conventions of the embedding.
    - A Python [str] is a [string]; the text handled here (URLs, file
      names, checksum files) is ASCII, and the case and whitespace
      tables below are the ASCII part of Python's.
    - A text file opened with mode ['r'] is the string of its decoded
      content, with line ends already translated to the newline
      character, as [readline] sees them.
    - A Python exception is a value [Raise e] of the type [outcome];
      state that survives an exception (the class attribute of the
      parser, the files on disk) is threaded explicitly.
    - Reading from the disk can fail: opening and reading a text file,
      and hashing a file, return the value or the error they raise. *)

From Stdlib Require Import String Ascii List Bool Arith Lia.
From Equations Require Import Equations.
Import ListNotations.
Local Open Scope list_scope.
Local Open Scope string_scope.

(** ** Python string operations *)

Module Py.

Definition NL_char : ascii := "010"%char.
Definition NL : string := String NL_char "".

(** [s.startswith(p)] *)
Fixpoint startswith (s p : string) : bool :=
  match p, s with
  | EmptyString, _ => true
  | String _ _, EmptyString => false
  | String a p', String b s' => if Ascii.eqb a b then startswith s' p' else false
  end.

(** [s.startswith(ps)] and [s.endswith(ps)] for a tuple [ps] *)
Definition startswith_any (s : string) (ps : list string) : bool :=
  existsb (startswith s) ps.

(** [s.endswith(suf)]: some tail of [s] is [suf] *)
Fixpoint endswith (s suf : string) : bool :=
  if String.eqb s suf then true
  else match s with
       | EmptyString => false
       | String _ s' => endswith s' suf
       end.

Definition endswith_any (s : string) (sufs : list string) : bool :=
  existsb (endswith s) sufs.

(** [sub in s] *)
Fixpoint contains (sub s : string) : bool :=
  if startswith s sub then true
  else match s with
       | EmptyString => false
       | String _ s' => contains sub s'
       end.

(** [s.split(sep)] for a separator of one character; the list is never
    empty *)
Fixpoint split (sep : ascii) (s : string) : list string :=
  match s with
  | EmptyString => [EmptyString]
  | String c s' =>
      if Ascii.eqb c sep then EmptyString :: split sep s'
      else match split sep s' with
           | [] => [String c EmptyString]
           | h :: t => String c h :: t
           end
  end.

(** [l[0]] and [l[-1]] on the result of a split *)
Definition first (l : list string) : string := hd EmptyString l.
Definition final (l : list string) : string := last l EmptyString.

(** [c.isspace()] on ASCII: tab, line feed, vertical tab, form feed,
    carriage return, the four separators 28..31 and the space *)
Definition isspace (c : ascii) : bool :=
  let n := nat_of_ascii c in
  (Nat.leb 9 n && Nat.leb n 13) || (Nat.leb 28 n && Nat.leb n 32).

Fixpoint lstrip (s : string) : string :=
  match s with
  | EmptyString => EmptyString
  | String c s' => if isspace c then lstrip s' else s
  end.

Fixpoint rstrip (s : string) : string :=
  match s with
  | EmptyString => EmptyString
  | String c s' =>
      match rstrip s' with
      | EmptyString => if isspace c then EmptyString else String c EmptyString
      | r => String c r
      end
  end.

(** [s.strip()] *)
Definition strip (s : string) : string := rstrip (lstrip s).

Definition upper_char (c : ascii) : ascii :=
  let n := nat_of_ascii c in
  if Nat.leb 97 n && Nat.leb n 122 then ascii_of_nat (n - 32) else c.

(** [s.upper()] *)
Fixpoint upper (s : string) : string :=
  match s with
  | EmptyString => EmptyString
  | String c s' => String (upper_char c) (upper s')
  end.

(** [f.readline()] on the unread part of a text file: the line with
    its newline, and what is left; the empty string at end of file *)
Fixpoint readline (f : string) : string * string :=
  match f with
  | EmptyString => (EmptyString, EmptyString)
  | String c f' =>
      if Ascii.eqb c NL_char then (NL, f')
      else let (l, r) := readline f' in (String c l, r)
  end.

(** [os.path.join(a, b)] of [posixpath] *)
Definition path_join (a b : string) : string :=
  if startswith b "/" then b
  else if String.eqb a "" || endswith a "/" then a ++ b
  else a ++ "/" ++ b.

Definition sep : string := "/".

End Py.

(** ** Exceptions, and the state a run works on *)

Inductive exn :=
| Exception (msg : string)   (* [raise Exception(msg)] of the script *)
| TypeError (msg : string)   (* raised by the interpreter *)
| External (msg : string).   (* raised inside a collaborator *)

Inductive outcome (A : Type) :=
| Ok (a : A)
| Raise (e : exn).
Arguments Ok {A} a.
Arguments Raise {A} e.

(** Modelled from the spec: the enumeration [fluxion.codec.Codec], whose
    declaration is not part of the script. The script tests for its two
    variants [H264] and [H265]; [OtherCodec] stands for any further one. *)
Inductive Codec := H264 | H265 | OtherCodec.

Definition Codec_eqb (a b : Codec) : bool :=
  match a, b with
  | H264, H264 | H265, H265 | OtherCodec, OtherCodec => true
  | _, _ => false
  end.

(** Modelled from the spec: the record [fluxion.test_suite.TestVector],
    built positionally as [TestVector(name, source, source_hash, input,
    result)]. *)
Module TestVector.
Record t := mk {
  name : string;
  source : string;
  source_hash : string;
  input : string;
  result : string }.

Definition set_input (v : string) (tv : t) : t :=
  mk (name tv) (source tv) (source_hash tv) v (result tv).
Definition set_source_hash (v : string) (tv : t) : t :=
  mk (name tv) (source tv) v (input tv) (result tv).
Definition set_result (v : string) (tv : t) : t :=
  mk (name tv) (source tv) (source_hash tv) (input tv) v.
End TestVector.

(** Modelled from the spec: the record [fluxion.test_suite.TestSuite],
    built as [TestSuite(filename, name, codec, description,
    test_vectors)]. *)
Module TestSuite.
Record t := mk {
  filename : string;
  name : string;
  codec : Codec;
  description : string;
  test_vectors : list TestVector.t }.

Definition set_test_vectors (v : list TestVector.t) (ts : t) : t :=
  mk (filename ts) (name ts) (codec ts) (description ts) v.
End TestSuite.

(** A directory as [os.walk] sees it: the names of its files and its
    sub-directories, each in the order the system lists them. *)
#[warnings="-register-all"]
Inductive dir :=
| Dir (files : list string) (subdirs : list (string * dir)).

(** What the script reads from disk: the tree below a directory
    ([None] when there is no such directory); the text that [open] and
    the reads deliver for a path, or the error they raise (no such
    file, no permission, bytes that do not decode: the text is decoded
    a block at a time and a checksum file is shorter than a block, so
    such an error shows at the first [readline]); and the digest
    [utils.file_checksum] computes for a path, or the error it raises
    (it opens and reads the file too). *)
Record Filesystem := {
  fs_dir : string -> option dir;
  fs_text : string -> outcome string;
  fs_checksum : string -> outcome string }.

(** The state of the process and of the disk. [HREFParser_links] is the
    list bound to the class attribute [HREFParser.links]; [written] is
    the manifests stored by [to_json_file], the latest first. *)
Record World := {
  HREFParser_links : list string;
  next_object : nat;
  resources : Filesystem;
  written : list (string * TestSuite.t) }.

Definition M (A : Type) : Type := World -> outcome A * World.

Definition ret {A} (a : A) : M A := fun w => (Ok a, w).
Definition raise {A} (e : exn) : M A := fun w => (Raise e, w).
Definition bind {A B} (c : M A) (k : A -> M B) : M B :=
  fun w => match c w with
           | (Ok a, w') => k a w'
           | (Raise e, w') => (Raise e, w')
           end.
Definition lift {A} (o : outcome A) : M A := fun w => (o, w).
Definition get_world : M World := fun w => (Ok w, w).

Notation "x <- c ;; k" := (bind c (fun x => k))
  (at level 61, c at next level, right associativity).
Notation "c ;;; k" := (bind c (fun _ => k))
  (at level 61, right associativity).

(** ** Constants of the script *)

Definition BASE_URL : string := "https://www.itu.int/".
Definition H265_URL : string :=
  BASE_URL ++ "wftp3/av-arch/jctvc-site/bitstream_exchange/draft_conformance/".
Definition H264_URL : string :=
  BASE_URL ++ "wftp3/av-arch/jvt-site/draft_conformance/".
Definition BITSTREAM_EXTS : list string :=
  [".bin"; ".bit"; ".264"; ".h264"; ".jvc"; ".jsv"; ".jvt"; ".avc"; ".26l"].
Definition MD5_EXTS : list string := ["yuv.md5"; ".md5"; "md5.txt"].
Definition MD5_EXCLUDES : list string := ["__MACOSX"; ".bin.md5"; "bit.md5"].
Definition RAW_EXTS : list string := [".yuv"; ".qcif"].

(** ** class HREFParser *)

(** A start tag as [HTMLParser.feed] hands it to [handle_starttag]: the
    tag name and the attributes in source order, an attribute written
    without a value carrying [None]. *)
Record starttag := {
  tag : string;
  attrs : list (string * option string) }.

Module HREFParser.

(** An instance. No method of the class assigns [self.links], so an
    instance has no [links] attribute of its own. *)
Record t := { object_id : nat }.

(** [HREFParser()]: the inherited constructor; the class attribute is
    left as it is. *)
Definition new : M t :=
  fun w => (Ok {| object_id := next_object w |},
            {| HREFParser_links := HREFParser_links w;
               next_object := S (next_object w);
               resources := resources w;
               written := written w |}).

(** [self.links]: the lookup finds nothing on the instance and
    resolves to the class attribute. *)
Definition links (self : t) : M (list string) :=
  fun w => (Ok (HREFParser_links w), w).

(** [self.links.append(x)]: the list object is changed in place. *)
Definition links_append (self : t) (x : string) : M unit :=
  fun w => (Ok tt,
            {| HREFParser_links := (HREFParser_links w ++ [x])%list;
               next_object := next_object w;
               resources := resources w;
               written := written w |}).

(** [BASE_URL + value] *)
Definition concat_value (value : option string) : M string :=
  match value with
  | Some v => ret (BASE_URL ++ v)
  | None => raise (TypeError "can only concatenate str (not NoneType) to str")
  end.

(** The loop [for name, value in attrs] *)
Fixpoint for_attrs (self : t) (l : list (string * option string)) : M unit :=
  match l with
  | [] => ret tt
  | (name, value) :: l' =>
      (if String.eqb name "href"
       then url <- concat_value value ;; links_append self url
       else ret tt) ;;;
      for_attrs self l'
  end.

Definition handle_starttag (self : t) (tag : string)
    (attrs : list (string * option string)) : M unit :=
  if String.eqb tag "a" then for_attrs self attrs else ret tt.

(** [self.feed(data)], as far as the class overrides it: one call of
    [handle_starttag] for each start tag of [data], in document
    order. *)
Fixpoint feed (self : t) (data : list starttag) : M unit :=
  match data with
  | [] => ret tt
  | st :: data' =>
      handle_starttag self (tag st) (attrs st) ;;; feed self data'
  end.

End HREFParser.

(** ** class JCTVTGenerator *)

Module JCTVTGenerator.

Record t := {
  name : string;
  suite_name : string;
  codec : Codec;
  description : string;
  site : string }.

(** [os.walk(top)], top-down: the directory itself, then each
    sub-directory in turn. *)
Fixpoint walk (top : string) (d : dir) : list (string * list string * list string) :=
  match d with
  | Dir files subdirs =>
      ((top, map fst subdirs, files) ::
       (fix walk_subdirs (l : list (string * dir)) :=
          match l with
          | [] => []
          | (n, d') :: l' => walk (Py.path_join top n) d' ++ walk_subdirs l'
          end) subdirs)%list
  end.

Definition os_walk (fs : Filesystem) (top : string)
    : list (string * list string * list string) :=
  match fs_dir fs top with
  | Some d => walk top d
  | None => []
  end.

(** The loop [for excl in excludes] with its [break] *)
Fixpoint for_excludes (excludes : list string) (filepath : string) : bool :=
  match excludes with
  | [] => false
  | excl :: excludes' =>
      if Py.contains excl filepath then true
      else for_excludes excludes' filepath
  end.

(** The loop [for filename in files] with its [return] *)
Fixpoint for_files (subdir : string) (files : list string)
    (exts excludes : list string) : option string :=
  match files with
  | [] => None
  | filename :: files' =>
      let filepath := subdir ++ Py.sep ++ filename in
      let excluded := for_excludes excludes filepath in
      if negb excluded && Py.endswith_any filepath exts then Some filepath
      else for_files subdir files' exts excludes
  end.

(** The loop [for subdir, _, files in os.walk(dest_dir)] *)
Fixpoint for_walk (entries : list (string * list string * list string))
    (exts excludes : list string) : option string :=
  match entries with
  | [] => None
  | (subdir, _, files) :: entries' =>
      match for_files subdir files exts excludes with
      | Some filepath => Some filepath
      | None => for_walk entries' exts excludes
      end
  end.

Definition _find_by_ext (fs : Filesystem) (dest_dir : string)
    (exts : list string) (excludes : option (list string)) : option string :=
  let excludes := match excludes with Some (e :: l) => e :: l | _ => [] end in
  for_walk (os_walk fs dest_dir) exts excludes.

Definition _fill_checksum_h264 (fs : Filesystem) (test_vector : TestVector.t)
    (dest_dir : string) : outcome TestVector.t :=
  match _find_by_ext fs dest_dir RAW_EXTS None with
  | None => Raise (Exception ("RAW file not found in " ++ dest_dir))
  | Some raw_file =>
      match fs_checksum fs raw_file with
      | Raise e => Raise e
      | Ok digest => Ok (TestVector.set_result digest test_vector)
      end
  end.

(** The two assignments to [test_vector.result] *)
Definition parse_line (line : string) : string :=
  if Py.contains "=" line
  then Py.upper (Py.strip (Py.final (Py.split "=" line)))
  else Py.upper (Py.first (Py.split Py.NL_char (Py.first (Py.split " " line)))).

Definition inspect {A} (a : A) : {b : A | a = b} := exist _ a eq_refl.

(** The loop [while True] over the unread part [f] of the checksum
    file: the value stored by the iteration that reaches [break], and
    the number of iterations executed. *)
Equations? while_True (f : string) : string * nat by wf (String.length f) lt :=
  while_True f with inspect (Py.readline f) := {
    | exist _ (line, rest) Hread
        with inspect (Py.startswith_any line ["#"; Py.NL]) := {
        | exist _ true Hskip =>
            let (r, n) := while_True rest in (r, S n)
        | exist _ false Hskip => (parse_line line, 1) } }.
Proof.
  assert (Hne : line <> "").
  { intros ->. discriminate Hskip. }
  clear Hskip while_True.
  revert line rest Hread Hne.
  induction f as [|c f IH]; simpl; intros line rest Hread Hne.
  - inversion Hread; subst. congruence.
  - destruct (Ascii.eqb c Py.NL_char).
    + inversion Hread; subst. lia.
    + destruct (Py.readline f) as [l r] eqn:E.
      inversion Hread; subst.
      destruct f as [|c' f'].
      * simpl in E. inversion E; subst. simpl. lia.
      * assert (l <> "").
        { simpl in E. destruct (Ascii.eqb c' Py.NL_char).
          - inversion E. discriminate.
          - destruct (Py.readline f'). inversion E. discriminate. }
        specialize (IH l rest eq_refl H). lia.
Qed.

Definition _fill_checksum_h265 (fs : Filesystem) (test_vector : TestVector.t)
    (dest_dir : string) : outcome TestVector.t :=
  match _find_by_ext fs dest_dir MD5_EXTS (Some MD5_EXCLUDES) with
  | None => Raise (Exception "MD5 not found")
  | Some checksum_file =>
      match fs_text fs checksum_file with
      | Raise e => Raise e
      | Ok text =>
          let (r, _) := while_True text in
          Ok (TestVector.set_result r test_vector)
      end
  end.

(** The loop [for url in hparser.links[1:]] of [generate], appending
    to [test_suite.test_vectors]; [urls] is the slice. *)
Fixpoint for_links (urls : list string) (test_vectors : list TestVector.t)
    : list TestVector.t :=
  match urls with
  | [] => test_vectors
  | url :: urls' =>
      if Py.contains "00readme_H" url then for_links urls' test_vectors
      else
        let file_url := Py.final (Py.split "/" url) in
        let name := Py.first (Py.split "." file_url) in
        let file_input := name ++ ".bin" in
        let test_vector := TestVector.mk name url "" file_input "" in
        for_links urls' (test_vectors ++ [test_vector])%list
  end.

(** The body of the loop [for test_vector in test_suite.test_vectors]
    of [generate]: the vector as the iteration leaves it. *)
Definition resolve (self : t) (fs : Filesystem) (test_suite : TestSuite.t)
    (test_vector : TestVector.t) : outcome TestVector.t :=
  let dest_dir :=
    Py.path_join (Py.path_join "resources" (TestSuite.name test_suite))
                 (TestVector.name test_vector) in
  let dest_path :=
    Py.path_join dest_dir
                 (Py.final (Py.split "/" (TestVector.source test_vector))) in
  match _find_by_ext fs dest_dir BITSTREAM_EXTS None with
  | None => Raise (Exception ("Bitstream file not found in " ++ dest_dir))
  | Some found =>
      if String.eqb found ""
      then Raise (Exception ("Bitstream file not found in " ++ dest_dir))
      else
        let test_vector := TestVector.set_input found test_vector in
        match fs_checksum fs dest_path with
        | Raise e => Raise e
        | Ok source_hash =>
            let test_vector :=
              TestVector.set_source_hash source_hash test_vector in
            if Codec_eqb (codec self) H265
            then _fill_checksum_h265 fs test_vector dest_dir
            else if Codec_eqb (codec self) H264
            then _fill_checksum_h264 fs test_vector dest_dir
            else Ok test_vector
        end
  end.

Fixpoint for_test_vectors (self : t) (fs : Filesystem)
    (test_suite : TestSuite.t) (l : list TestVector.t)
    : outcome (list TestVector.t) :=
  match l with
  | [] => Ok []
  | test_vector :: l' =>
      match resolve self fs test_suite test_vector with
      | Raise e => Raise e
      | Ok test_vector' =>
          match for_test_vectors self fs test_suite l' with
          | Raise e => Raise e
          | Ok l'' => Ok (test_vector' :: l'')
          end
      end
  end.

(** [test_suite.to_json_file(path)]: the manifest is stored. *)
Definition to_json_file (test_suite : TestSuite.t) (path : string) : M unit :=
  fun w => (Ok tt,
            {| HREFParser_links := HREFParser_links w;
               next_object := next_object w;
               resources := resources w;
               written := (path, test_suite) :: written w |}).

Section Collaborators.

(** The start tags of the page that [urlopen(url)] fetches, as
    [feed] meets them, or the error of the transport. *)
Variable urlopen : string -> outcome (list starttag).

(** [test_suite.download('resources', verify=False)]: what it leaves
    on disk, and whether it raised. *)
Variable download : TestSuite.t -> Filesystem -> outcome unit * Filesystem.

Definition do_download (test_suite : TestSuite.t) : M unit :=
  fun w =>
    let (o, fs) := download test_suite (resources w) in
    (o, {| HREFParser_links := HREFParser_links w;
           next_object := next_object w;
           resources := fs;
           written := written w |}).

Definition generate (self : t) (download : bool) : M unit :=
  let output_filepath := suite_name self ++ ".json" in
  let test_suite :=
    TestSuite.mk output_filepath (suite_name self) (codec self)
                 (description self) [] in
  hparser <- HREFParser.new ;;
  data <- lift (urlopen (site self ++ name self)) ;;
  HREFParser.feed hparser data ;;;
  links <- HREFParser.links hparser ;;
  let test_suite :=
    TestSuite.set_test_vectors
      (for_links (tl links) (TestSuite.test_vectors test_suite))
      test_suite in
  (if download then do_download test_suite else ret tt) ;;;
  w <- get_world ;;
  test_vectors <-
    lift (for_test_vectors self (resources w) test_suite
            (TestSuite.test_vectors test_suite)) ;;
  let test_suite := TestSuite.set_test_vectors test_vectors test_suite in
  to_json_file test_suite output_filepath.

(** The two runs of the script *)
Definition main (skip_download : bool) : M unit :=
  generate {| name := "HEVC_v1"; suite_name := "JCT-VC-HEVC_V1";
              codec := H265; description := "JCT-VC HEVC version 1";
              site := H265_URL |} (negb skip_download) ;;;
  generate {| name := "AVCv1"; suite_name := "JVT-AVC_V1";
              codec := H264; description := "JVT AVC version 1";
              site := H264_URL |} (negb skip_download).

End Collaborators.

End JCTVTGenerator.

(** ** Notions the properties are stated with *)

Module Spec.

(** [s] has an occurrence of [sub]. *)
Definition occurs (sub s : string) : Prop :=
  exists a b, s = a ++ sub ++ b.

(** [s] ends with [suf]; [s] begins with [p]. *)
Definition ends_with (s suf : string) : Prop := exists a, s = a ++ suf.
Definition begins_with (s p : string) : Prop := exists b, s = p ++ b.

(** The part of [s] before the first [c], all of [s] when there is
    none. *)
Fixpoint before_first (c : ascii) (s : string) : string :=
  match s with
  | EmptyString => EmptyString
  | String a s' => if Ascii.eqb a c then EmptyString else String a (before_first c s')
  end.

(** The part of [s] after the last [c], all of [s] when there is
    none. *)
Fixpoint after_last (c : ascii) (s : string) : string :=
  match s with
  | EmptyString => EmptyString
  | String a s' =>
      if Py.contains (String c EmptyString) s' then after_last c s'
      else if Ascii.eqb a c then s' else s
  end.

(** The number of lines of a text file: one for each newline, and one
    more for a last line that has none. *)
Fixpoint line_count (f : string) : nat :=
  match f with
  | EmptyString => 0
  | String c f' =>
      if Ascii.eqb c Py.NL_char then S (line_count f')
      else match f' with
           | EmptyString => 1
           | String _ _ => line_count f'
           end
  end.

(** [string_concat ls]: the lines [ls] one after the other. *)
Definition join_lines (ls : list string) : string :=
  fold_right String.append EmptyString ls.

(** A line the scan passes over: a blank line, or a comment, with its
    newline. *)
Definition skipped_line (l : string) : Prop :=
  exists body, l = body ++ Py.NL
               /\ Py.contains Py.NL body = false
               /\ (body = EmptyString \/ Py.startswith body "#" = true).

(** [line] is a whole line of a file that goes on with [rest]: it ends
    at its newline, or at the end of the file. *)
Inductive is_line : string -> string -> Prop :=
| line_newline body rest :
    Py.contains Py.NL body = false -> is_line (body ++ Py.NL) rest
| line_at_eof body :
    Py.contains Py.NL body = false -> is_line body EmptyString.

(** A substantive line: not empty, and neither a comment nor blank. *)
Definition substantive (line : string) : Prop :=
  line <> EmptyString
  /\ Py.startswith line "#" = false
  /\ Py.startswith line Py.NL = false.

(** A file without a substantive line: blank lines and comments only,
    the last of which may lack its newline. *)
Definition no_substantive_line (f : string) : Prop :=
  exists skipped last,
    f = join_lines skipped ++ last
    /\ Forall skipped_line skipped
    /\ Py.contains Py.NL last = false
    /\ (last = EmptyString \/ Py.startswith last "#" = true).

(** The paths of the files below a directory, in the order of the
    traversal. *)
Definition file_paths (entries : list (string * list string * list string))
    : list string :=
  flat_map (fun e => map (fun filename => fst (fst e) ++ Py.sep ++ filename)
                         (snd e)) entries.

(** A path the locator may return: it has no occurrence of an
    exclusion and ends with one of the suffixes. *)
Definition acceptable (exts excludes : list string) (p : string) : Prop :=
  (forall excl, In excl excludes -> ~ occurs excl p)
  /\ (exists ext, In ext exts /\ ends_with p ext).

(** The [href] values among the attributes of one tag *)
Definition attr_hrefs (l : list (string * option string)) : list (option string) :=
  map snd (filter (fun a => String.eqb (fst a) "href") l).

(** The [href] attributes of the anchors of a page, in document
    order. *)
Definition hrefs_of (st : starttag) : list (option string) :=
  if String.eqb (tag st) "a" then attr_hrefs (attrs st) else [].

Definition hrefs (data : list starttag) : list (option string) :=
  flat_map hrefs_of data.

(** The anchors that carry an [href] attribute. *)
Definition anchors_with_href (data : list starttag) : list starttag :=
  filter (fun st => match hrefs_of st with [] => false | _ => true end) data.

(** Every such anchor has one [href] attribute, and it has a value. *)
Definition one_href_each (data : list starttag) : Prop :=
  Forall (fun st => exists v, hrefs_of st = [Some v]) (anchors_with_href data).

(** The values of those attributes, in document order. *)
Definition values (os : list (option string)) : list string :=
  flat_map (fun o => match o with Some v => [v] | None => [] end) os.

Definition href_values (data : list starttag) : list string :=
  values (hrefs data).

(** The links made of them *)
Definition urls (os : list (option string)) : list string :=
  map (String.append BASE_URL) (values os).

(** One parse, as [generate] does it: a new parser, the page fed to it,
    and its [links] read. *)
Definition parse (data : list starttag) : M (list string) :=
  hparser <- HREFParser.new ;;
  HREFParser.feed hparser data ;;;
  HREFParser.links hparser.

(** Two parsers built one after the other, each fed the same page, and
    the list seen through each of them afterwards. *)
Definition parse_twice (data : list starttag)
    : M (HREFParser.t * HREFParser.t * list string * list string) :=
  p1 <- HREFParser.new ;;
  HREFParser.feed p1 data ;;;
  p2 <- HREFParser.new ;;
  HREFParser.feed p2 data ;;;
  l1 <- HREFParser.links p1 ;;
  l2 <- HREFParser.links p2 ;;
  ret (p1, p2, l1, l2).

(** The vector the manifest builder makes of a link: the name is the
    last segment of the link up to its first dot. *)
Definition placeholder (url : string) : TestVector.t :=
  let name := before_first "." (after_last "/" url) in
  TestVector.mk name url "" (name ++ ".bin") "".

(** [excludes or []] *)
Definition or_empty (excludes : option (list string)) : list string :=
  match excludes with Some l => l | None => [] end.

(** The test the locator makes on one path *)
Definition accepts (exts excludes : list string) (filepath : string) : bool :=
  negb (JCTVTGenerator.for_excludes excludes filepath)
  && Py.endswith_any filepath exts.

(** The world with another list bound to [HREFParser.links] *)
Definition with_links (l : list string) (w : World) : World :=
  {| HREFParser_links := l;
     next_object := next_object w;
     resources := resources w;
     written := written w |}.

(** The directory [generate] looks into for a vector *)
Definition dest_dir (suite_name : string) (tv : TestVector.t) : string :=
  Py.path_join (Py.path_join "resources" suite_name) (TestVector.name tv).

(** The archive [generate] hashes for a vector *)
Definition dest_path (suite_name : string) (tv : TestVector.t) : string :=
  Py.path_join (dest_dir suite_name tv)
               (Py.final (Py.split "/" (TestVector.source tv))).

(** What the resolution loop of [generate] leaves of the vector [built]
    when it goes through: the bitstream was located and is the input,
    the archive was hashed, and the result is what the policy of the
    codec took from the file it located and read. *)
Definition resolved (codec : Codec) (fs : Filesystem) (suite_name : string)
    (built tv : TestVector.t) : Prop :=
  let dir := dest_dir suite_name built in
  TestVector.name tv = TestVector.name built
  /\ TestVector.source tv = TestVector.source built
  /\ TestVector.input tv <> ""
  /\ JCTVTGenerator._find_by_ext fs dir BITSTREAM_EXTS None
     = Some (TestVector.input tv)
  /\ fs_checksum fs (dest_path suite_name built)
     = Ok (TestVector.source_hash tv)
  /\ match codec with
     | H265 =>
         exists checksum_file text,
           JCTVTGenerator._find_by_ext fs dir MD5_EXTS (Some MD5_EXCLUDES)
           = Some checksum_file
           /\ fs_text fs checksum_file = Ok text
           /\ TestVector.result tv = fst (JCTVTGenerator.while_True text)
     | H264 =>
         exists raw_file,
           JCTVTGenerator._find_by_ext fs dir RAW_EXTS None = Some raw_file
           /\ fs_checksum fs raw_file = Ok (TestVector.result tv)
     | OtherCodec => TestVector.result tv = TestVector.result built
     end.

End Spec.

(** ** Sample data *)

Module Sample.

Definition digest : string := "d41d8cd98f00b204e9800998ecf8427e".

(** A disk with one directory [top] that holds [files], every file
    having the text [text]. *)
Definition disk (top : string) (files : list string) (text : string)
    : Filesystem :=
  {| fs_dir := fun p => if String.eqb p top then Some (Dir files []) else None;
     fs_text := fun _ => Ok text;
     fs_checksum := fun _ => Ok digest |}.

Definition vector : TestVector.t :=
  TestVector.mk "WP_A_Toshiba_3" (BASE_URL ++ "x/WP_A_Toshiba_3.zip") ""
                "WP_A_Toshiba_3.bin" "".

Definition layout1 : string :=
  "158312a1a35ef4b20cb4aeee48549c03 *WP_A_Toshiba_3.bit" ++ Py.NL.
Definition layout2 : string :=
  "MD5 (rec.yuv) = e5c4c20a8871aa446a344efb1755bcf9" ++ Py.NL.
Definition comments : list string :=
  ["# MD5 checksums generated by MD5summer (http://www.md5summer.org)" ++ Py.NL;
   "# Generated 6/14/2013 4:22:11 PM" ++ Py.NL].
Definition layout3 : string :=
  "29799285628de148502da666a7fc2df5 *DBLK_F_VIXS_1.bit" ++ Py.NL.

Definition anchor (href : string) : starttag :=
  {| tag := "a"; attrs := [("href", Some href)] |}.

(** A listing of two archives after the usual first row *)
Definition page : list starttag :=
  [anchor "x/"; {| tag := "img"; attrs := [("src", Some "i.png")] |};
   anchor "x/WP_A_Toshiba_3.zip"; anchor "x/DBLK_F_VIXS_1.zip"].

Definition fresh (fs : Filesystem) : World :=
  {| HREFParser_links := []; next_object := 0; resources := fs; written := [] |}.

(** A process right after start, and the two collaborators: the
    transport answers [page] for every address, the download leaves
    the disk as it is. *)
Definition urlopen (url : string) : outcome (list starttag) := Ok page.
Definition download (ts : TestSuite.t) (fs : Filesystem)
    : outcome unit * Filesystem := (Ok tt, fs).

(** The disk of a run over a listing of one archive, whose checksum
    file is empty. *)
Definition one_page : list starttag :=
  [anchor "x/"; anchor "x/WP_A_Toshiba_3.zip"].
Definition urlopen_one (url : string) : outcome (list starttag) := Ok one_page.
Definition hevc : JCTVTGenerator.t :=
  {| JCTVTGenerator.name := "HEVC_v1";
     JCTVTGenerator.suite_name := "JCT-VC-HEVC_V1";
     JCTVTGenerator.codec := H265;
     JCTVTGenerator.description := "JCT-VC HEVC version 1";
     JCTVTGenerator.site := H265_URL |}.
Definition hevc_disk : Filesystem :=
  disk "resources/JCT-VC-HEVC_V1/WP_A_Toshiba_3"
       ["WP_A_Toshiba_3.bit"; "WP_A_Toshiba_3.md5"] "".

(** The two listings of a whole run of the script, one archive each,
    and a disk that holds both archives unpacked. *)
Definition urlopen_main (url : string) : outcome (list starttag) :=
  if String.eqb url (H265_URL ++ "HEVC_v1")
  then Ok [anchor "x/"; anchor "x/A_1.zip"]
  else Ok [anchor "y/"; anchor "y/B_1.zip"].
Definition main_disk : Filesystem :=
  {| fs_dir := fun p =>
       if String.eqb p "resources/JCT-VC-HEVC_V1/A_1"
       then Some (Dir ["A_1.bit"; "A_1.md5"] [])
       else if String.eqb p "resources/JVT-AVC_V1/B_1"
       then Some (Dir ["B_1.264"; "B_1.yuv"] [])
       else None;
     fs_text := fun _ => Ok layout1;
     fs_checksum := fun _ => Ok digest |}.
Definition avc : JCTVTGenerator.t :=
  {| JCTVTGenerator.name := "AVCv1";
     JCTVTGenerator.suite_name := "JVT-AVC_V1";
     JCTVTGenerator.codec := H264;
     JCTVTGenerator.description := "JVT AVC version 1";
     JCTVTGenerator.site := H264_URL |}.

(** A disk like [disk], whose files cannot be opened: reading and
    hashing raise the error of the system. *)
Definition unreadable : exn := External "PermissionError".
Definition locked_disk (top : string) (files : list string) : Filesystem :=
  {| fs_dir := fun p => if String.eqb p top then Some (Dir files []) else None;
     fs_text := fun _ => Raise unreadable;
     fs_checksum := fun _ => Raise unreadable |}.

(** A line of spaces, with its newline *)
Definition spaces_line : string := "   " ++ Py.NL.

End Sample.

(** ** Notions of the further properties *)

Module More.

(** The error of [BASE_URL + value] for an attribute without value *)
Definition no_value : exn :=
  TypeError "can only concatenate str (not NoneType) to str".

(** Whether every [href] has a value, and the values up to the first
    [href] that has none. *)
Definition all_valued (os : list (option string)) : bool :=
  forallb (fun o => match o with Some _ => true | None => false end) os.

Fixpoint valued_prefix (os : list (option string)) : list string :=
  match os with
  | Some v :: os' => v :: valued_prefix os'
  | _ => []
  end.

(** No sub-directory, at any depth, has a name that begins with a
    slash: the names are those of directory entries. *)
Fixpoint plain_names (d : dir) : bool :=
  match d with
  | Dir _ subdirs =>
      (fix plain_subdirs (l : list (string * dir)) : bool :=
         match l with
         | [] => true
         | (n, d') :: l' =>
             negb (Py.startswith n "/") && plain_names d' && plain_subdirs l'
         end) subdirs
  end.

(** A disk where every directory holds a bitstream, a checksum file and
    a raw file, and a disk without any directory. *)
Definition full_disk : Filesystem :=
  {| fs_dir := fun _ => Some (Dir ["v.bit"; "v.md5"; "v.yuv"] []);
     fs_text := fun _ => Ok Sample.layout1;
     fs_checksum := fun _ => Ok Sample.digest |}.
Definition empty_disk : Filesystem :=
  {| fs_dir := fun _ => None;
     fs_text := fun _ => Ok "";
     fs_checksum := fun _ => Ok Sample.digest |}.

(** The first character of a string, if any, is not a blank. *)
Definition head_kept (s : string) : Prop :=
  match s with
  | EmptyString => True
  | String c _ => Py.isspace c = false
  end.

(** A generator for a codec other than the two of the script *)
Definition other : JCTVTGenerator.t :=
  {| JCTVTGenerator.name := "X_v1";
     JCTVTGenerator.suite_name := "X";
     JCTVTGenerator.codec := OtherCodec;
     JCTVTGenerator.description := "another codec";
     JCTVTGenerator.site := BASE_URL |}.


End More.

(** ** Python string operations: their meaning *)

Section StringFacts.

Lemma append_nil_r (s : string) : s ++ "" = s.
Proof. induction s; simpl; congruence. Qed.

Lemma append_assoc (a b c : string) : (a ++ b) ++ c = a ++ b ++ c.
Proof. induction a; simpl; congruence. Qed.

Lemma startswith_nil (s : string) : Py.startswith s "" = true.
Proof. destruct s; reflexivity. Qed.

Lemma startswith_spec (s p : string) :
  Py.startswith s p = true <-> Spec.begins_with s p.
Proof.
  unfold Spec.begins_with. revert s.
  induction p as [|a p IH]; intros s.
  - rewrite startswith_nil.
    split; [intros _; exists s; reflexivity | reflexivity].
  - destruct s as [|b s]; simpl.
    + split; [discriminate | intros [r Hr]; discriminate].
    + destruct (Ascii.eqb_spec a b) as [->|Hne].
      * rewrite IH. split; intros [r Hr]; exists r.
        -- simpl. now rewrite Hr.
        -- simpl in Hr. now inversion Hr.
      * split; [discriminate | intros [r Hr]].
        simpl in Hr. inversion Hr. congruence.
Qed.

Lemma contains_spec (sub s : string) :
  Py.contains sub s = true <-> Spec.occurs sub s.
Proof.
  unfold Spec.occurs. induction s as [|c s IH]; cbn [Py.contains].
  - destruct (Py.startswith "" sub) eqn:E.
    + split; [intros _ | reflexivity].
      apply startswith_spec in E. destruct E as [r Hr].
      exists "", r. exact Hr.
    + split; [discriminate | intros (a & b & H)].
      destruct a; [|discriminate]. simpl in H.
      assert (Py.startswith "" sub = true)
        by (apply startswith_spec; exists b; exact H).
      congruence.
  - destruct (Py.startswith (String c s) sub) eqn:E.
    + split; [intros _ | reflexivity].
      apply startswith_spec in E. destruct E as [r Hr].
      exists "", r. exact Hr.
    + rewrite IH. split.
      * intros (a & b & H). exists (String c a), b. simpl. now rewrite H.
      * intros (a & b & H). destruct a as [|c' a].
        -- simpl in H.
           assert (Py.startswith (String c s) sub = true)
             by (apply startswith_spec; exists b; exact H).
           congruence.
        -- simpl in H. inversion H. exists a, b. reflexivity.
Qed.

Lemma endswith_spec (s suf : string) :
  Py.endswith s suf = true <-> Spec.ends_with s suf.
Proof.
  unfold Spec.ends_with. induction s as [|c s IH]; cbn [Py.endswith].
  - destruct (String.eqb_spec "" suf) as [<-|Hne].
    + split; [intros _; exists ""; reflexivity | reflexivity].
    + split; [discriminate | intros [a H]].
      destruct a; simpl in H; [congruence | discriminate].
  - destruct (String.eqb_spec (String c s) suf) as [<-|Hne].
    + split; [intros _; exists ""; reflexivity | reflexivity].
    + rewrite IH. split.
      * intros [a H]. exists (String c a). simpl. now rewrite H.
      * intros [a H]. destruct a as [|c' a]; simpl in H; [congruence|].
        inversion H. exists a. reflexivity.
Qed.

Lemma startswith_append (s p t : string) :
  Py.startswith s p = true -> Py.startswith (s ++ t) p = true.
Proof.
  rewrite !startswith_spec. intros [b ->]. exists (b ++ t).
  now rewrite append_assoc.
Qed.




(** Occurrences of one character *)
Lemma contains_char_cons (c a : ascii) (s : string) :
  Py.contains (String c "") (String a s)
  = Ascii.eqb c a || Py.contains (String c "") s.
Proof.
  simpl. rewrite startswith_nil. now destruct (Ascii.eqb c a).
Qed.

Lemma contains_char_nil (c : ascii) : Py.contains (String c "") "" = false.
Proof. reflexivity. Qed.


End StringFacts.

(** The operations on the values the script meets *)

Example split_url :
  Py.split "/" "https://www.itu.int/x/WP_A_Toshiba_3.zip"
  = ["https:"; ""; "www.itu.int"; "x"; "WP_A_Toshiba_3.zip"].
Proof. reflexivity. Qed.

Example split_trailing : Py.split "/" "x/" = ["x"; ""].
Proof. reflexivity. Qed.

Example strip_token :
  Py.strip (" e5c4c20a8871aa446a344efb1755bcf9" ++ Py.NL)
  = "e5c4c20a8871aa446a344efb1755bcf9".
Proof. reflexivity. Qed.

Example upper_token : Py.upper "e5c4 (rec.yuv)" = "E5C4 (REC.YUV)".
Proof. reflexivity. Qed.

Example readline_twice :
  Py.readline ("# a" ++ Py.NL ++ "b") = ("# a" ++ Py.NL, "b")
  /\ Py.readline "b" = ("b", "")
  /\ Py.readline "" = ("", "").
Proof. repeat split. Qed.

Example endswith_suffix :
  Py.endswith "d/a.bin.md5" ".md5" = true
  /\ Py.endswith "d/a.md5" ".bin.md5" = false
  /\ Py.endswith "md5" ".md5" = false.
Proof. repeat split. Qed.

Example path_join_cases :
  Py.path_join (Py.path_join "resources" "JVT-AVC_V1") "B_1"
  = "resources/JVT-AVC_V1/B_1"
  /\ Py.path_join "resources/" "B_1" = "resources/B_1"
  /\ Py.path_join "resources" "/B_1" = "/B_1".
Proof. repeat split. Qed.

(** The traversal lists a directory before its sub-directories, and
    these in turn. *)
Example walk_order :
  Spec.file_paths
    (JCTVTGenerator.walk "d"
       (Dir ["a.txt"]
            [("s", Dir ["b.bit"] [("t", Dir ["c.md5"] [])]);
             ("u", Dir ["e.yuv"] [])]))
  = ["d/a.txt"; "d/s/b.bit"; "d/s/t/c.md5"; "d/u/e.yuv"].
Proof. reflexivity. Qed.

Section SplitFacts.

Variable c : ascii.

Lemma split_not_nil (s : string) : Py.split c s <> [].
Proof.
  induction s as [|a s IH]; simpl; [discriminate|].
  destruct (Ascii.eqb a c); [discriminate|].
  destruct (Py.split c s); discriminate.
Qed.

(** Without the separator there is one part. *)
Lemma split_without (s : string) :
  Py.contains (String c "") s = false -> Py.split c s = [s].
Proof.
  induction s as [|a s IH]; [reflexivity|].
  rewrite contains_char_cons. intros H.
  apply orb_false_elim in H. destruct H as [Hca Hs].
  simpl. rewrite Ascii.eqb_sym, Hca. now rewrite (IH Hs).
Qed.

(** The parts on both sides of a separator *)
Lemma split_app (a b : string) :
  Py.split c (a ++ String c b) = (Py.split c a ++ Py.split c b)%list.
Proof.
  induction a as [|x a IH]; simpl.
  - now rewrite Ascii.eqb_refl.
  - destruct (Ascii.eqb x c).
    + now rewrite IH.
    + rewrite IH. destruct (Py.split c a) as [|h t] eqn:E.
      * now apply split_not_nil in E.
      * reflexivity.
Qed.

Lemma first_split_before (h r : string) :
  Py.contains (String c "") h = false ->
  Py.first (Py.split c (h ++ String c r)) = h.
Proof.
  intros H. now rewrite split_app, (split_without _ H).
Qed.


Lemma first_split (s : string) :
  Py.first (Py.split c s) = Spec.before_first c s.
Proof.
  induction s as [|a s IH]; simpl; [reflexivity|].
  destruct (Ascii.eqb a c); [reflexivity|].
  destruct (Py.split c s) as [|h t] eqn:E.
  - now apply split_not_nil in E.
  - simpl in *. now rewrite IH.
Qed.

Lemma final_split (s : string) :
  Py.final (Py.split c s) = Spec.after_last c s.
Proof.
  induction s as [|a s IH]; [reflexivity|].
  cbn [Spec.after_last].
  destruct (Py.contains (String c "") s) eqn:Hs.
  - rewrite <- IH. simpl.
    destruct (Ascii.eqb a c).
    + unfold Py.final. cbn [last].
      destruct (Py.split c s) eqn:E; [now apply split_not_nil in E|].
      reflexivity.
    + destruct (Py.split c s) as [|h t] eqn:E;
        [now apply split_not_nil in E|].
      destruct t as [|h' t].
      * exfalso. clear IH.
        assert (Hlen : forall u, Py.contains (String c "") u = true ->
                            2 <= length (Py.split c u)).
        { clear. induction u as [|x u IHu]; [discriminate|].
          rewrite contains_char_cons. simpl.
          destruct (Ascii.eqb_spec x c) as [->|Hne].
          - intros _. simpl.
            pose proof (split_not_nil u).
            destruct (Py.split c u); [congruence | simpl; lia].
          - rewrite Ascii.eqb_sym.
            destruct (Ascii.eqb_spec x c); [congruence|]. simpl.
            intros Hu. specialize (IHu Hu).
            destruct (Py.split c u); simpl in *; lia. }
        specialize (Hlen s Hs). rewrite E in Hlen. simpl in Hlen. lia.
      * reflexivity.
  - simpl. rewrite (split_without _ Hs).
    destruct (Ascii.eqb a c); reflexivity.
Qed.

End SplitFacts.

Section LineFacts.

Lemma readline_newline (body rest : string) :
  Py.contains Py.NL body = false ->
  Py.readline (body ++ Py.NL ++ rest) = (body ++ Py.NL, rest).
Proof.
  unfold Py.NL. change (String Py.NL_char "" ++ rest) with (String Py.NL_char rest).
  induction body as [|a body IH]; intros H.
  - reflexivity.
  - rewrite contains_char_cons in H. apply orb_false_elim in H.
    destruct H as [Ha Hb]. cbn [String.append Py.readline].
    rewrite Ascii.eqb_sym, Ha. now rewrite (IH Hb).
Qed.

Lemma readline_eof (body : string) :
  Py.contains Py.NL body = false ->
  Py.readline body = (body, "").
Proof.
  unfold Py.NL. induction body as [|a body IH]; intros H; [reflexivity|].
  rewrite contains_char_cons in H. apply orb_false_elim in H.
  destruct H as [Ha Hb]. cbn [Py.readline].
  rewrite Ascii.eqb_sym, Ha. now rewrite (IH Hb).
Qed.

Lemma readline_is_line (line rest : string) :
  Spec.is_line line rest -> Py.readline (line ++ rest) = (line, rest).
Proof.
  intros [body rest' H | body H].
  - rewrite append_assoc. now apply readline_newline.
  - rewrite append_nil_r. now apply readline_eof.
Qed.

Lemma readline_shorter (f line rest : string) :
  Py.readline f = (line, rest) -> f <> "" ->
  line <> "" /\ String.length rest < String.length f
  /\ Spec.line_count f = S (Spec.line_count rest).
Proof.
  revert line rest. induction f as [|a f IH]; intros line rest H Hne;
    [congruence|].
  simpl in H. cbn [Spec.line_count String.length].
  destruct (Ascii.eqb a Py.NL_char).
  - inversion H; subst. repeat split; [discriminate | lia].
  - destruct (Py.readline f) as [l r] eqn:E. inversion H; subst.
    split; [discriminate|].
    destruct f as [|b f].
    + simpl in E. inversion E; subst. simpl. split; [lia | reflexivity].
    + destruct (IH l rest eq_refl) as (_ & Hlen & Hcnt); [discriminate|].
      split; [simpl in *; lia | exact Hcnt].
Qed.

Lemma skip_nonempty (line : string) :
  Py.startswith_any line ["#"; Py.NL] = true -> line <> "".
Proof. intros H ->. discriminate H. Qed.

Lemma skip_skipped_line (l : string) :
  Spec.skipped_line l -> Py.startswith_any l ["#"; Py.NL] = true.
Proof.
  intros (body & -> & _ & [-> | H]); [reflexivity|].
  unfold Py.startswith_any. cbn [existsb].
  now rewrite (startswith_append _ _ Py.NL H).
Qed.

Lemma skip_substantive (line : string) :
  Spec.substantive line -> Py.startswith_any line ["#"; Py.NL] = false.
Proof.
  intros (_ & H1 & H2). unfold Py.startswith_any. cbn [existsb].
  now rewrite H1, H2.
Qed.

End LineFacts.

(** ** The scan of the checksum file *)

Section ScanFacts.

Import JCTVTGenerator.

Lemma while_True_unfold (f : string) :
  while_True f =
  let (line, rest) := Py.readline f in
  if Py.startswith_any line ["#"; Py.NL]
  then let (r, n) := while_True rest in (r, S n)
  else (parse_line line, 1).
Proof.
  funelim (while_True f).
  - now rewrite Hread, Hskip.
  - now rewrite Hread, Hskip.
Qed.

(** A skipped line costs one iteration and changes nothing else. *)
Lemma while_True_skip (l f : string) :
  Spec.skipped_line l ->
  while_True (l ++ f) = (fst (while_True f), S (snd (while_True f))).
Proof.
  intros Hl. rewrite (while_True_unfold (l ++ f)).
  pose proof (skip_skipped_line _ Hl) as Hs.
  destruct Hl as (body & -> & Hb & _).
  rewrite append_assoc, (readline_newline _ _ Hb), Hs.
  now destruct (while_True f).
Qed.

Lemma while_True_skips (ls : list string) (f : string) :
  Forall Spec.skipped_line ls ->
  while_True (Spec.join_lines ls ++ f)
  = (fst (while_True f), length ls + snd (while_True f)).
Proof.
  induction 1 as [|l ls Hl _ IH]; simpl.
  - now destruct (while_True f).
  - rewrite append_assoc, (while_True_skip _ _ Hl), IH. reflexivity.
Qed.

(** A substantive line ends the scan. *)
Lemma while_True_line (line rest : string) :
  Spec.is_line line rest -> Spec.substantive line ->
  while_True (line ++ rest) = (parse_line line, 1).
Proof.
  intros Hl Hs. rewrite while_True_unfold, (readline_is_line _ _ Hl).
  now rewrite (skip_substantive _ Hs).
Qed.

(** The end of the file ends the scan too, with an empty token. *)
Lemma while_True_last (last : string) :
  Py.contains Py.NL last = false ->
  last = "" \/ Py.startswith last "#" = true ->
  fst (while_True last) = "".
Proof.
  intros Hnl [-> | Hc]; [reflexivity|].
  rewrite while_True_unfold, (readline_eof _ Hnl).
  unfold Py.startswith_any. cbn [existsb]. rewrite Hc. cbn [orb].
  reflexivity.
Qed.

Lemma while_True_first_substantive (skipped : list string) (line rest : string) :
  Forall Spec.skipped_line skipped ->
  Spec.is_line line rest -> Spec.substantive line ->
  while_True (Spec.join_lines skipped ++ line ++ rest)
  = (parse_line line, S (length skipped)).
Proof.
  intros Hsk Hl Hs.
  rewrite (while_True_skips _ _ Hsk), (while_True_line _ _ Hl Hs).
  cbn [fst snd]. f_equal. lia.
Qed.

Lemma while_True_no_substantive (f : string) :
  Spec.no_substantive_line f -> fst (while_True f) = "".
Proof.
  intros (skipped & last & -> & Hsk & Hnl & Hlast).
  rewrite (while_True_skips _ _ Hsk). cbn [fst].
  now apply while_True_last.
Qed.

(** The number of iterations *)
Lemma while_True_iterations (f : string) :
  1 <= snd (while_True f) <= S (Spec.line_count f).
Proof.
  remember (String.length f) as n eqn:Hn.
  revert f Hn. induction n as [n IH] using lt_wf_ind. intros f Hn.
  rewrite while_True_unfold.
  destruct (Py.readline f) as [line rest] eqn:Hread.
  destruct (Py.startswith_any line ["#"; Py.NL]) eqn:Hskip.
  - assert (Hf : f <> "").
    { intros ->. simpl in Hread. inversion Hread; subst. discriminate. }
    destruct (readline_shorter _ _ _ Hread Hf) as (_ & Hlen & Hcnt).
    specialize (IH (String.length rest) ltac:(lia) rest eq_refl).
    destruct (while_True rest) as [r k]. cbn [snd] in *. lia.
  - cbn [snd]. lia.
Qed.




End ScanFacts.

(** ** The artifact locator *)

Section LocatorFacts.

Import JCTVTGenerator.

Variables exts excludes : list string.

Local Abbreviation accepts := (Spec.accepts exts excludes).

Lemma for_excludes_false (p : string) :
  for_excludes excludes p = false
  <-> forall excl, In excl excludes -> ~ Spec.occurs excl p.
Proof.
  induction excludes as [|e l IH]; simpl.
  - split; [intros _ excl [] | reflexivity].
  - destruct (Py.contains e p) eqn:E.
    + split; [discriminate|]. intros H. exfalso.
      apply (H e); [now left | now apply contains_spec].
    + rewrite IH. split.
      * intros H excl [<- | Hin]; [|now apply H].
        rewrite <- contains_spec. congruence.
      * intros H excl Hin. apply H. now right.
Qed.

Lemma accepts_spec (p : string) :
  accepts p = true <-> Spec.acceptable exts excludes p.
Proof.
  unfold Spec.accepts, Spec.acceptable, Py.endswith_any.
  rewrite andb_true_iff, negb_true_iff, for_excludes_false, existsb_exists.
  split; intros [H1 (ext & Hin & He)]; (split; [exact H1|]);
    exists ext; (split; [exact Hin|]); now apply endswith_spec.
Qed.

Lemma accepts_false (p : string) :
  accepts p = false <-> ~ Spec.acceptable exts excludes p.
Proof.
  rewrite <- accepts_spec. destruct (accepts p); split; congruence.
Qed.

Lemma for_files_find (subdir : string) (files : list string) :
  for_files subdir files exts excludes
  = find accepts (map (fun filename => subdir ++ Py.sep ++ filename) files).
Proof.
  induction files as [|f files IH]; [reflexivity|].
  cbn [for_files map find]. fold (accepts (subdir ++ Py.sep ++ f)).
  now destruct (accepts (subdir ++ Py.sep ++ f)).
Qed.

Lemma find_app {A} (f : A -> bool) (l1 l2 : list A) :
  find f (l1 ++ l2)%list
  = match find f l1 with Some x => Some x | None => find f l2 end.
Proof.
  induction l1 as [|a l1 IH]; [reflexivity|].
  simpl. now destruct (f a).
Qed.

Lemma for_walk_find (entries : list (string * list string * list string)) :
  for_walk entries exts excludes = find accepts (Spec.file_paths entries).
Proof.
  induction entries as [|[[subdir dirs] files] entries IH]; [reflexivity|].
  cbn [for_walk Spec.file_paths flat_map fst snd].
  rewrite find_app, for_files_find, IH. reflexivity.
Qed.

Lemma find_first {A} (f : A -> bool) (l : list A) (x : A) :
  find f l = Some x
  <-> exists before after,
        l = (before ++ x :: after)%list /\ f x = true
        /\ Forall (fun y => f y = false) before.
Proof.
  induction l as [|a l IH]; simpl.
  - split; [discriminate | intros (b & t & H & _)].
    destruct b; discriminate.
  - destruct (f a) eqn:E.
    + split.
      * intros [= <-]. exists [], l. auto.
      * intros (b & t & H & Hx & Hb). destruct b as [|y b].
        -- simpl in H. congruence.
        -- simpl in H. inversion H; subst. inversion Hb; subst. congruence.
    + rewrite IH. split.
      * intros (b & t & -> & Hx & Hb). exists (a :: b), t. auto.
      * intros (b & t & H & Hx & Hb). destruct b as [|y b].
        -- simpl in H. inversion H; subst. congruence.
        -- simpl in H. inversion H; subst. inversion Hb; subst.
           exists b, t. auto.
Qed.

Lemma find_none_iff {A} (f : A -> bool) (l : list A) :
  find f l = None <-> Forall (fun y => f y = false) l.
Proof.
  induction l as [|a l IH]; simpl.
  - split; auto.
  - destruct (f a) eqn:E.
    + split; [discriminate | intros H; inversion H; congruence].
    + rewrite IH. split; [auto | intros H; now inversion H].
Qed.

End LocatorFacts.

Section FindByExt.

Import JCTVTGenerator.

Lemma find_by_ext_find fs dest_dir exts excludes :
  _find_by_ext fs dest_dir exts excludes
  = find (Spec.accepts exts (Spec.or_empty excludes))
         (Spec.file_paths (os_walk fs dest_dir)).
Proof.
  unfold _find_by_ext. rewrite for_walk_find.
  destruct excludes as [[|e l]|]; reflexivity.
Qed.

Lemma find_by_ext_some fs dest_dir exts excludes p :
  _find_by_ext fs dest_dir exts excludes = Some p
  <-> exists before after,
        Spec.file_paths (os_walk fs dest_dir) = (before ++ p :: after)%list
        /\ Spec.acceptable exts (Spec.or_empty excludes) p
        /\ Forall (fun q => ~ Spec.acceptable exts (Spec.or_empty excludes) q) before.
Proof.
  rewrite find_by_ext_find, find_first.
  split; intros (b & t & H & Hp & Hb); exists b, t;
    (split; [exact H|]); split.
  - now apply accepts_spec.
  - eapply Forall_impl; [|exact Hb]. intros q. apply accepts_false.
  - now apply accepts_spec.
  - eapply Forall_impl; [|exact Hb]. intros q. apply accepts_false.
Qed.

Lemma find_by_ext_none fs dest_dir exts excludes :
  _find_by_ext fs dest_dir exts excludes = None
  <-> Forall (fun q => ~ Spec.acceptable exts (Spec.or_empty excludes) q)
             (Spec.file_paths (os_walk fs dest_dir)).
Proof.
  rewrite find_by_ext_find, find_none_iff.
  split; intros H; (eapply Forall_impl; [|exact H]); intros q;
    apply accepts_false.
Qed.

End FindByExt.

(** ** The checksum extractor *)

Section ChecksumExtractor.

Import JCTVTGenerator.

Variable fs : Filesystem.
Variable test_vector : TestVector.t.
Variable dest_dir : string.

(** Once the checksum file is located and read, the extractor stores
    what the scan of its text returns. *)
Lemma fill_checksum_h265_located (checksum_file text : string) :
  _find_by_ext fs dest_dir MD5_EXTS (Some MD5_EXCLUDES) = Some checksum_file ->
  fs_text fs checksum_file = Ok text ->
  _fill_checksum_h265 fs test_vector dest_dir
  = Ok (TestVector.set_result (fst (while_True text)) test_vector).
Proof.
  intros H Ht. unfold _fill_checksum_h265. rewrite H, Ht.
  now destruct (while_True text).
Qed.

Lemma parse_line_leading_space (line : string) :
  Py.startswith line " " = true -> Py.contains "=" line = false ->
  parse_line line = "".
Proof.
  intros Hsp Heq. unfold parse_line. rewrite Heq.
  apply startswith_spec in Hsp. destruct Hsp as [r ->].
  change (" " ++ r) with ("" ++ String " "%char r).
  now rewrite first_split_before.
Qed.

End ChecksumExtractor.

(** C10. The scan of the checksum file ends for every file. At the end
    of the file [readline] returns the empty string, which is neither a
    comment nor blank, so that iteration reaches [break]; the loop runs
    at least once and at most once more than the file has lines. *)
Theorem C10_scan_terminates (f : string) :
  Py.readline "" = ("", "")
  /\ Py.startswith_any "" ["#"; Py.NL] = false
  /\ 1 <= snd (JCTVTGenerator.while_True f) <= Spec.line_count f + 1.
Proof.
  repeat split; try apply while_True_iterations.
  pose proof (while_True_iterations f). lia.
Qed.

(** C4, as the code has it. The extractor skips the leading lines that
    begin with [#] or are empty (a line that is only its newline) and
    stores the parse of the first other line, after one iteration for
    each skipped line and one for that line; what follows the line in
    the file has no influence. A line of blanks is such an other line:
    it is parsed, not skipped. *)
Theorem C4_first_substantive_line_parsed
    (fs : Filesystem) (test_vector : TestVector.t)
    (dest_dir checksum_file : string)
    (skipped : list string) (line rest : string) :
  JCTVTGenerator._find_by_ext fs dest_dir MD5_EXTS (Some MD5_EXCLUDES)
    = Some checksum_file ->
  fs_text fs checksum_file = Ok (Spec.join_lines skipped ++ line ++ rest) ->
  Forall Spec.skipped_line skipped ->
  Spec.is_line line rest ->
  Spec.substantive line ->
  JCTVTGenerator._fill_checksum_h265 fs test_vector dest_dir
    = Ok (TestVector.set_result (JCTVTGenerator.parse_line line) test_vector)
  /\ JCTVTGenerator.while_True (Spec.join_lines skipped ++ line ++ rest)
     = (JCTVTGenerator.parse_line line, S (length skipped)).
Proof.
  intros Hfind Htext Hsk Hl Hs.
  rewrite (fill_checksum_h265_located _ _ _ _ _ Hfind Htext).
  rewrite (while_True_first_substantive _ _ _ Hsk Hl Hs).
  split; reflexivity.
Qed.

(** The comment lines of the sample are skipped lines. *)
Lemma sample_comments_skipped : Forall Spec.skipped_line Sample.comments.
Proof.
  repeat constructor.
  - exists "# MD5 checksums generated by MD5summer (http://www.md5summer.org)".
    repeat split. now right.
  - exists "# Generated 6/14/2013 4:22:11 PM".
    repeat split. now right.
Defined.

Lemma C4_witness :
  JCTVTGenerator._fill_checksum_h265
    (Sample.disk "d" ["a.md5"]
       (Spec.join_lines Sample.comments ++ Sample.layout3 ++ "ignored"))
    Sample.vector "d"
  = Ok (TestVector.set_result "29799285628DE148502DA666A7FC2DF5" Sample.vector)
  /\ JCTVTGenerator._fill_checksum_h265
    (Sample.disk "d" ["a.md5"]
       (Spec.join_lines Sample.comments ++ Sample.layout2 ++ "ignored"))
    Sample.vector "d"
  = Ok (TestVector.set_result "E5C4C20A8871AA446A344EFB1755BCF9" Sample.vector).
Proof.
  split.
  - refine (proj1 (C4_first_substantive_line_parsed
             (Sample.disk "d" ["a.md5"] _) Sample.vector "d" "d/a.md5"
             Sample.comments Sample.layout3 "ignored" _ _ _ _ _)).
    + reflexivity.
    + reflexivity.
    + exact sample_comments_skipped.
    + apply (Spec.line_newline
               "29799285628de148502da666a7fc2df5 *DBLK_F_VIXS_1.bit").
      reflexivity.
    + repeat split. discriminate.
  - refine (proj1 (C4_first_substantive_line_parsed
             (Sample.disk "d" ["a.md5"] _) Sample.vector "d" "d/a.md5"
             Sample.comments Sample.layout2 "ignored" _ _ _ _ _)).
    + reflexivity.
    + reflexivity.
    + exact sample_comments_skipped.
    + apply (Spec.line_newline
               "MD5 (rec.yuv) = e5c4c20a8871aa446a344efb1755bcf9").
      reflexivity.
    + repeat split. discriminate.
Defined.

(** C4 as stated fails: a leading line of spaces is blank and yet is
    not skipped. It is parsed as the first substantive line, the empty
    token is stored, and the data line after it is never read. *)
Lemma C4_counterexample :
  JCTVTGenerator._fill_checksum_h265
    (Sample.disk "d" ["a.md5"] (Sample.spaces_line ++ Sample.layout1))
    Sample.vector "d"
  = Ok (TestVector.set_result "" Sample.vector)
  /\ JCTVTGenerator.while_True (Sample.spaces_line ++ Sample.layout1) = ("", 1)
  /\ JCTVTGenerator.parse_line Sample.layout1
     = "158312A1A35EF4B20CB4AEEE48549C03".
Proof. repeat split. Qed.

(** A line of blanks is parsed, whatever follows it: spaces give the
    empty token, a tab gives the tab. *)
Example blank_line_is_parsed :
  JCTVTGenerator.while_True ("   " ++ Py.NL ++ Sample.layout2) = ("", 1)
  /\ JCTVTGenerator.while_True
       (String "009"%char Py.NL ++ Sample.layout2)
     = (String "009"%char "", 1).
Proof. split; reflexivity. Qed.



(** C2, as the code has it. When the located checksum file is read
    and has no substantive line (every line begins with [#] or is only
    its newline, the last one perhaps without newline, or the file is
    empty), the extractor does not raise: it returns and stores the
    empty string. The same when the first line that is not skipped
    begins with a space and has no equals sign. *)
Theorem C2_extraction_stores_empty_token
    (fs : Filesystem) (test_vector : TestVector.t)
    (dest_dir checksum_file text : string) :
  JCTVTGenerator._find_by_ext fs dest_dir MD5_EXTS (Some MD5_EXCLUDES)
    = Some checksum_file ->
  fs_text fs checksum_file = Ok text ->
  (Spec.no_substantive_line text ->
   JCTVTGenerator._fill_checksum_h265 fs test_vector dest_dir
   = Ok (TestVector.set_result "" test_vector))
  /\ (forall skipped line rest,
      text = Spec.join_lines skipped ++ line ++ rest ->
      Forall Spec.skipped_line skipped ->
      Spec.is_line line rest ->
      Py.startswith line " " = true ->
      Py.contains "=" line = false ->
      JCTVTGenerator._fill_checksum_h265 fs test_vector dest_dir
      = Ok (TestVector.set_result "" test_vector)).
Proof.
  intros Hfind Htext.
  rewrite (fill_checksum_h265_located _ _ _ _ _ Hfind Htext).
  split.
  - intros Hno. now rewrite (while_True_no_substantive _ Hno).
  - intros skipped line rest -> Hsk Hl Hsp Heq.
    assert (Hs : Spec.substantive line).
    { apply startswith_spec in Hsp. destruct Hsp as [r ->].
      repeat split. discriminate. }
    rewrite (while_True_first_substantive _ _ _ Hsk Hl Hs). cbn [fst].
    now rewrite (parse_line_leading_space _ Hsp Heq).
Qed.

Lemma C2_witness :
  JCTVTGenerator._fill_checksum_h265
    (Sample.disk "d" ["a.md5"] (Spec.join_lines Sample.comments))
    Sample.vector "d"
  = Ok (TestVector.set_result "" Sample.vector).
Proof.
  refine (proj1 (C2_extraction_stores_empty_token
            (Sample.disk "d" ["a.md5"] (Spec.join_lines Sample.comments))
            Sample.vector "d" "d/a.md5" (Spec.join_lines Sample.comments)
            _ _) _).
  - reflexivity.
  - reflexivity.
  - exists Sample.comments, "". repeat split.
    + exact sample_comments_skipped.
    + now left.
Defined.

(** C2 as stated fails: on a located checksum file that is empty the
    extractor returns normally and stores the empty string. *)
Lemma C2_counterexample :
  fs_text (Sample.disk "d" ["a.md5"] "") "d/a.md5" = Ok ""
  /\ Spec.no_substantive_line ""
  /\ JCTVTGenerator._find_by_ext (Sample.disk "d" ["a.md5"] "") "d"
       MD5_EXTS (Some MD5_EXCLUDES) = Some "d/a.md5"
  /\ JCTVTGenerator._fill_checksum_h265 (Sample.disk "d" ["a.md5"] "")
       Sample.vector "d"
     = Ok (TestVector.set_result "" Sample.vector)
  /\ forall e, JCTVTGenerator._fill_checksum_h265 (Sample.disk "d" ["a.md5"] "")
       Sample.vector "d" <> Raise e.
Proof.
  split; [|split; [|split; [|split]]].
  - reflexivity.
  - exists [], "". repeat split; [constructor | now left].
  - reflexivity.
  - reflexivity.
  - intros e. discriminate.
Qed.



(** C8, as the code has it. For the raw-checksum codec the filling
    raises [RAW file not found] when no path below the directory of the
    vector ends with [.yuv] or [.qcif]. When one does, the first such
    file is hashed, without any parse of its text: the digest is stored
    as the result, or, when the hashing raises, its error is raised and
    nothing is stored. The filling raises in these two cases only. *)
Theorem C8_raw_checksum_or_error
    (fs : Filesystem) (test_vector : TestVector.t) (dest_dir : string) :
  let paths := Spec.file_paths (JCTVTGenerator.os_walk fs dest_dir) in
  let raw p := Spec.ends_with p ".yuv" \/ Spec.ends_with p ".qcif" in
  (Forall (fun p => ~ raw p) paths ->
   JCTVTGenerator._fill_checksum_h264 fs test_vector dest_dir
   = Raise (Exception ("RAW file not found in " ++ dest_dir)))
  /\ (forall raw_file,
      JCTVTGenerator._find_by_ext fs dest_dir RAW_EXTS None = Some raw_file ->
      JCTVTGenerator._fill_checksum_h264 fs test_vector dest_dir
      = match fs_checksum fs raw_file with
        | Ok digest => Ok (TestVector.set_result digest test_vector)
        | Raise e => Raise e
        end)
  /\ ((exists e, JCTVTGenerator._fill_checksum_h264 fs test_vector dest_dir = Raise e)
      <-> Forall (fun p => ~ raw p) paths
          \/ exists raw_file e,
               JCTVTGenerator._find_by_ext fs dest_dir RAW_EXTS None = Some raw_file
               /\ fs_checksum fs raw_file = Raise e)
  /\ (forall raw_file,
      JCTVTGenerator._find_by_ext fs dest_dir RAW_EXTS None = Some raw_file
      <-> exists before after,
            paths = (before ++ raw_file :: after)%list
            /\ raw raw_file /\ Forall (fun p => ~ raw p) before).
Proof.
  intros paths raw.
  assert (Hraw : forall p, Spec.acceptable RAW_EXTS (Spec.or_empty None) p <-> raw p).
  { intros p. unfold Spec.acceptable, raw, RAW_EXTS. cbn [Spec.or_empty In]. split.
    - intros [_ (ext & [<- | [<- | []]] & He)]; auto.
    - intros H. split; [intros excl []|].
      destruct H as [H | H]; [exists ".yuv" | exists ".qcif"]; auto. }
  assert (Hall : forall l, Forall (fun q => ~ Spec.acceptable RAW_EXTS (Spec.or_empty None) q) l
                           <-> Forall (fun p => ~ raw p) l).
  { intros l. split; intros H; (eapply Forall_impl; [|exact H]); intros q Hq Hq';
      apply Hq; now apply Hraw. }
  subst paths. split; [|split; [|split]].
  - intros H. apply Hall, find_by_ext_none in H.
    unfold JCTVTGenerator._fill_checksum_h264. now rewrite H.
  - intros raw_file H. unfold JCTVTGenerator._fill_checksum_h264. rewrite H.
    now destruct (fs_checksum fs raw_file).
  - rewrite <- Hall, <- find_by_ext_none.
    unfold JCTVTGenerator._fill_checksum_h264.
    destruct (JCTVTGenerator._find_by_ext fs dest_dir RAW_EXTS None) as [raw_file|].
    + destruct (fs_checksum fs raw_file) as [digest|e] eqn:Hsum.
      * split; [intros [e He]; discriminate|].
        intros [H | (r & e & [= <-] & He)]; [discriminate | congruence].
      * split; [|intros _; eexists; reflexivity].
        intros _. right. exists raw_file, e. split; [reflexivity | exact Hsum].
    + split; [now left | intros _; eexists; reflexivity].
  - intros raw_file. rewrite find_by_ext_some.
    split; intros (b & t & H & Hp & Hb); exists b, t;
      (split; [exact H|]); (split; [now apply Hraw | now apply Hall]).
Qed.

Lemma C8_witness :
  JCTVTGenerator._fill_checksum_h264 (Sample.disk "d" ["a.bit"] "")
    Sample.vector "d"
  = Raise (Exception "RAW file not found in d")
  /\ JCTVTGenerator._fill_checksum_h264 (Sample.disk "d" ["a.bit"; "a.yuv"] "")
       Sample.vector "d"
     = Ok (TestVector.set_result Sample.digest Sample.vector).
Proof.
  split.
  - refine (proj1 (C8_raw_checksum_or_error (Sample.disk "d" ["a.bit"] "")
              Sample.vector "d") _).
    repeat constructor.
    intros [[a H] | [a H]];
      assert (Hb : Py.endswith "d/a.bit" ".yuv" = true
                   \/ Py.endswith "d/a.bit" ".qcif" = true)
        by (first [left; apply endswith_spec; now exists a
                  | right; apply endswith_spec; now exists a]);
      destruct Hb; discriminate.
  - refine (proj1 (proj2 (C8_raw_checksum_or_error
              (Sample.disk "d" ["a.bit"; "a.yuv"] "") Sample.vector "d"))
              "d/a.yuv" _).
    reflexivity.
Defined.

(** C8 as stated fails: with a raw file in the directory that cannot
    be opened, the file is found and the filling raises all the same,
    the error of the hashing. *)
Lemma C8_counterexample :
  JCTVTGenerator._find_by_ext (Sample.locked_disk "d" ["a.bit"; "a.yuv"]) "d"
    RAW_EXTS None = Some "d/a.yuv"
  /\ JCTVTGenerator._fill_checksum_h264 (Sample.locked_disk "d" ["a.bit"; "a.yuv"])
       Sample.vector "d"
     = Raise Sample.unreadable.
Proof. split; reflexivity. Qed.

(** ** The manifest builder *)

Section ManifestBuilder.

Import JCTVTGenerator.

Lemma for_links_acc (urls : list string) (acc : list TestVector.t) :
  for_links urls acc
  = (acc ++ map Spec.placeholder
              (filter (fun url => negb (Py.contains "00readme_H" url)) urls))%list.
Proof.
  revert acc. induction urls as [|url urls IH]; intros acc.
  - cbn [for_links filter map]. now rewrite app_nil_r.
  - cbn [for_links filter].
    destruct (Py.contains "00readme_H" url); cbn [negb]; [apply IH|].
    rewrite IH, <- app_assoc. cbn [map app]. unfold Spec.placeholder.
    now rewrite final_split, first_split.
Qed.

End ManifestBuilder.


(** ** The link extractor *)

Section LinkExtractor.

Import HREFParser.

Variable self : HREFParser.t.

Lemma with_links_same (w : World) : Spec.with_links (HREFParser_links w) w = w.
Proof. now destruct w. Qed.

Lemma with_links_twice (l1 l2 : list string) (w : World) :
  Spec.with_links l2 (Spec.with_links l1 w) = Spec.with_links l2 w.
Proof. reflexivity. Qed.

Local Abbreviation attr_hrefs := Spec.attr_hrefs.
Local Abbreviation urls := Spec.urls.

Lemma values_app (a b : list (option string)) :
  Spec.values (a ++ b) = (Spec.values a ++ Spec.values b)%list.
Proof. unfold Spec.values. now rewrite flat_map_app. Qed.

Lemma urls_app (a b : list (option string)) :
  urls (a ++ b) = (urls a ++ urls b)%list.
Proof. unfold Spec.urls. now rewrite values_app, map_app. Qed.

(** With a value on every [href], the attribute loop appends one link
    for each and returns normally. *)
Lemma for_attrs_valued (l : list (string * option string)) (w : World) :
  Forall (fun o => o <> None) (attr_hrefs l) ->
  for_attrs self l w
  = (Ok tt, Spec.with_links (HREFParser_links w ++ urls (attr_hrefs l)) w).
Proof.
  revert w. induction l as [|[name value] l IH]; intros w Hv.
  - cbn. now rewrite app_nil_r, with_links_same.
  - unfold Spec.attr_hrefs in *. cbn [for_attrs filter fst] in *.
    destruct (String.eqb name "href").
    + cbn [map snd] in Hv. inversion Hv as [|? ? Hvalue Hrest]; subst.
      destruct value as [v|]; [|congruence].
      cbn [bind concat_value ret links_append].
      rewrite (IH _ Hrest). unfold Spec.with_links.
      cbn [HREFParser_links next_object resources written map snd].
      change (Some v :: map snd (filter (fun a => String.eqb (fst a) "href") l))
        with ([Some v] ++ map snd (filter (fun a => String.eqb (fst a) "href") l))%list.
      rewrite urls_app, app_assoc. reflexivity.
    + cbn [bind ret]. now apply IH.
Qed.

(** Whatever the attributes are, the loop only appends. *)
Lemma for_attrs_extends (l : list (string * option string)) (w : World) :
  exists added,
    snd (for_attrs self l w)
    = Spec.with_links (HREFParser_links w ++ added) w.
Proof.
  revert w. induction l as [|[name value] l IH]; intros w.
  - exists []. cbn. now rewrite app_nil_r, with_links_same.
  - cbn [for_attrs]. destruct (String.eqb name "href").
    + destruct value as [v|].
      * cbn [bind concat_value ret links_append].
        match goal with |- context [for_attrs self l ?w1] =>
          destruct (IH w1) as [added Ha]; rewrite Ha end.
        exists ((BASE_URL ++ v)%string :: added).
        unfold Spec.with_links.
        cbn [HREFParser_links next_object resources written].
        now rewrite <- app_assoc.
      * exists []. cbn [bind concat_value raise snd].
        now rewrite app_nil_r, with_links_same.
    + cbn [bind ret]. apply IH.
Qed.

Lemma hrefs_of_attr_hrefs (st : starttag) :
  Spec.hrefs_of st
  = if String.eqb (tag st) "a" then attr_hrefs (attrs st) else [].
Proof. reflexivity. Qed.

Lemma handle_starttag_valued (st : starttag) (w : World) :
  Forall (fun o => o <> None) (Spec.hrefs_of st) ->
  handle_starttag self (tag st) (attrs st) w
  = (Ok tt, Spec.with_links (HREFParser_links w ++ urls (Spec.hrefs_of st)) w).
Proof.
  rewrite hrefs_of_attr_hrefs. unfold handle_starttag.
  destruct (String.eqb (tag st) "a").
  - apply for_attrs_valued.
  - intros _. cbn. now rewrite app_nil_r, with_links_same.
Qed.

Lemma feed_valued (data : list starttag) (w : World) :
  Forall (fun o => o <> None) (Spec.hrefs data) ->
  feed self data w
  = (Ok tt, Spec.with_links (HREFParser_links w ++ urls (Spec.hrefs data)) w).
Proof.
  revert w. induction data as [|st data IH]; intros w Hv.
  - cbn. now rewrite app_nil_r, with_links_same.
  - unfold Spec.hrefs in *. cbn [flat_map] in *.
    apply Forall_app in Hv. destruct Hv as [Hst Hdata].
    cbn [feed]. unfold bind at 1.
    rewrite (handle_starttag_valued _ _ Hst), (IH _ Hdata).
    rewrite with_links_twice. cbn [HREFParser_links Spec.with_links].
    now rewrite urls_app, app_assoc.
Qed.

Lemma feed_extends (data : list starttag) (w : World) :
  exists added,
    snd (feed self data w) = Spec.with_links (HREFParser_links w ++ added) w.
Proof.
  revert w. induction data as [|st data IH]; intros w.
  - exists []. cbn. now rewrite app_nil_r, with_links_same.
  - cbn [feed]. unfold bind at 1.
    assert (Hst : exists added,
               snd (handle_starttag self (tag st) (attrs st) w)
               = Spec.with_links (HREFParser_links w ++ added) w).
    { unfold handle_starttag. destruct (String.eqb (tag st) "a").
      - apply for_attrs_extends.
      - exists []. cbn. now rewrite app_nil_r, with_links_same. }
    destruct Hst as [a1 H1].
    destruct (handle_starttag self (tag st) (attrs st) w) as [[[]|e] w1];
      cbn [snd] in *; subst w1.
    + destruct (IH (Spec.with_links (HREFParser_links w ++ a1) w)) as [a2 H2].
      rewrite H2. exists (a1 ++ a2)%list.
      rewrite with_links_twice. cbn [HREFParser_links Spec.with_links].
      now rewrite app_assoc.
    + exists a1. reflexivity.
Qed.

(** One valued [href] on each anchor that has any: every [href] has a
    value, and there are as many as such anchors. *)
Lemma one_href_each_valued (data : list starttag) :
  Spec.one_href_each data ->
  Forall (fun o => o <> None) (Spec.hrefs data)
  /\ length (Spec.href_values data) = length (Spec.anchors_with_href data).
Proof.
  unfold Spec.one_href_each, Spec.href_values, Spec.hrefs, Spec.anchors_with_href.
  induction data as [|st data IH]; intros H.
  - split; [constructor | reflexivity].
  - cbn [flat_map filter] in *.
    destruct (Spec.hrefs_of st) as [|o os] eqn:E.
    + cbn [app]. now apply IH.
    + inversion H as [|? ? [v Hv] Hrest]; subst.
      rewrite E in Hv. inversion Hv; subst.
      destruct (IH Hrest) as [IH1 IH2]. split.
      * constructor; [discriminate | exact IH1].
      * rewrite values_app, length_app. cbn [length]. rewrite <- IH2.
        reflexivity.
Qed.

End LinkExtractor.

(** C9. The list behind [links] belongs to the class: a feed only
    appends to it, whether it returns or raises, and building a parser
    leaves it as it is. So after the same page, with one valued [href]
    on each of its [N] anchors, is fed to two parsers built one after
    the other in a process that has parsed nothing before, both parsers
    show the same list: the links of the page twice, [2 N] in all. *)
Theorem C9_links_shared_by_all_instances (data : list starttag) (w : World) :
  (forall self, exists added,
      snd (HREFParser.feed self data w)
      = Spec.with_links (HREFParser_links w ++ added) w)
  /\ HREFParser_links (snd (HREFParser.new w)) = HREFParser_links w
  /\ (Spec.one_href_each data ->
      HREFParser_links w = [] ->
      let page_links := map (String.append BASE_URL) (Spec.href_values data) in
      exists p1 p2 w',
        Spec.parse_twice data w
        = (Ok (p1, p2, page_links ++ page_links, page_links ++ page_links)%list, w')
        /\ HREFParser.object_id p1 <> HREFParser.object_id p2
        /\ HREFParser_links w' = (page_links ++ page_links)%list
        /\ length (page_links ++ page_links)
           = 2 * length (Spec.anchors_with_href data)).
Proof.
  split; [|split].
  - intros self. apply feed_extends.
  - reflexivity.
  - intros Hone Hempty page_links.
    destruct (one_href_each_valued _ Hone) as [Hv Hlen].
    unfold Spec.parse_twice, bind, HREFParser.new, HREFParser.links, ret.
    rewrite (feed_valued _ _ _ Hv).
    cbn [Spec.with_links HREFParser_links next_object resources written].
    rewrite (feed_valued _ _ _ Hv).
    cbn [Spec.with_links HREFParser_links next_object resources written].
    rewrite Hempty. cbn [app].
    change (Spec.urls (Spec.hrefs data)) with page_links.
    do 3 eexists. split; [reflexivity|].
    cbn [HREFParser.object_id HREFParser_links]. split; [lia|].
    split; [reflexivity|].
    fold page_links. rewrite length_app.
    unfold page_links. rewrite length_map, Hlen. lia.
Qed.

Lemma C9_witness :
  exists p1 p2 w',
    Spec.parse_twice Sample.one_page (Sample.fresh Sample.hevc_disk)
    = (Ok (p1, p2,
           [BASE_URL ++ "x/"; BASE_URL ++ "x/WP_A_Toshiba_3.zip";
            BASE_URL ++ "x/"; BASE_URL ++ "x/WP_A_Toshiba_3.zip"],
           [BASE_URL ++ "x/"; BASE_URL ++ "x/WP_A_Toshiba_3.zip";
            BASE_URL ++ "x/"; BASE_URL ++ "x/WP_A_Toshiba_3.zip"]), w').
Proof.
  destruct (proj2 (proj2 (C9_links_shared_by_all_instances
              Sample.one_page (Sample.fresh Sample.hevc_disk))))
    as (p1 & p2 & w' & H & _).
  - repeat constructor; eexists; reflexivity.
  - reflexivity.
  - exists p1, p2, w'. exact H.
Defined.

(** C7, evaluated. In a process that has parsed nothing yet, one parse
    of a page with two anchors returns its two links. The next parse of
    the same page, with a parser of its own, returns five: the three
    links of the page parsed before it and then its own two. *)
Theorem C7_later_parse_returns_earlier_links :
  length (Spec.anchors_with_href Sample.one_page) = 2
  /\ fst (Spec.parse Sample.one_page (Sample.fresh Sample.hevc_disk))
     = Ok [BASE_URL ++ "x/"; BASE_URL ++ "x/WP_A_Toshiba_3.zip"]
  /\ fst ((Spec.parse Sample.page ;;; Spec.parse Sample.one_page)
            (Sample.fresh Sample.hevc_disk))
     = Ok [BASE_URL ++ "x/"; BASE_URL ++ "x/WP_A_Toshiba_3.zip";
           BASE_URL ++ "x/DBLK_F_VIXS_1.zip";
           BASE_URL ++ "x/"; BASE_URL ++ "x/WP_A_Toshiba_3.zip"].
Proof. repeat split. Qed.

(** The same in a whole run of the script. Alone, the second generator
    stores a manifest of the one archive of its listing; after the first
    generator it takes the links of the first listing for its own and
    raises on the first of them. *)
Lemma main_second_run_takes_first_listing :
  (exists suite w',
      JCTVTGenerator.generate Sample.urlopen_main Sample.download Sample.avc
        false (Sample.fresh Sample.main_disk) = (Ok tt, w')
      /\ written w' = [("JVT-AVC_V1.json", suite)]
      /\ map TestVector.name (TestSuite.test_vectors suite) = ["B_1"])
  /\ fst (JCTVTGenerator.main Sample.urlopen_main Sample.download true
            (Sample.fresh Sample.main_disk))
     = Raise (Exception "Bitstream file not found in resources/JVT-AVC_V1/A_1").
Proof.
  split.
  - do 2 eexists. split; [vm_compute; reflexivity|]. split; reflexivity.
  - vm_compute. reflexivity.
Qed.

(** ** The orchestrator *)

Section Orchestrator.

Import JCTVTGenerator.

Variable urlopen : string -> outcome (list starttag).
Variable download : TestSuite.t -> Filesystem -> outcome unit * Filesystem.
Variable self : JCTVTGenerator.t.

(** One iteration of the resolution loop that goes through *)
Lemma resolve_ok (fs : Filesystem) (test_suite : TestSuite.t)
    (built tv : TestVector.t) :
  resolve self fs test_suite built = Ok tv ->
  Spec.resolved (codec self) fs (TestSuite.name test_suite) built tv.
Proof.
  unfold resolve, Spec.resolved.
  fold (Spec.dest_dir (TestSuite.name test_suite) built).
  fold (Spec.dest_path (TestSuite.name test_suite) built).
  set (dir := Spec.dest_dir (TestSuite.name test_suite) built).
  set (path := Spec.dest_path (TestSuite.name test_suite) built).
  destruct (_find_by_ext fs dir BITSTREAM_EXTS None) as [found|] eqn:Hfound;
    [|discriminate].
  destruct (String.eqb_spec found "") as [->|Hne]; [discriminate|].
  destruct (fs_checksum fs path) as [hash|e] eqn:Hhash; [|discriminate].
  destruct (codec self); cbn [Codec_eqb].
  - unfold _fill_checksum_h264.
    destruct (_find_by_ext fs dir RAW_EXTS None) as [raw|] eqn:Hraw;
      [|discriminate].
    destruct (fs_checksum fs raw) as [digest|e] eqn:Hsum; [|discriminate].
    intros [= <-]. cbn. repeat split; try assumption.
    exists raw. split; [reflexivity | exact Hsum].
  - unfold _fill_checksum_h265.
    destruct (_find_by_ext fs dir MD5_EXTS (Some MD5_EXCLUDES)) as [f|] eqn:Hmd5;
      [|discriminate].
    destruct (fs_text fs f) as [text|e] eqn:Htext; [|discriminate].
    destruct (while_True text) as [r n] eqn:Hscan.
    intros [= <-]. cbn. repeat split; try assumption.
    exists f, text. split; [reflexivity|]. split; [exact Htext|].
    now rewrite Hscan.
  - intros [= <-]. cbn. repeat split; assumption.
Qed.

Lemma for_test_vectors_ok (fs : Filesystem) (test_suite : TestSuite.t)
    (l l' : list TestVector.t) :
  for_test_vectors self fs test_suite l = Ok l' ->
  Forall2 (Spec.resolved (codec self) fs (TestSuite.name test_suite)) l l'.
Proof.
  revert l'. induction l as [|built l IH]; intros l'; cbn [for_test_vectors].
  - intros [= <-]. constructor.
  - destruct (resolve self fs test_suite built) as [tv|e] eqn:Hres;
      [|discriminate].
    destruct (for_test_vectors self fs test_suite l) as [l''|e]; [|discriminate].
    intros [= <-]. constructor; [now apply resolve_ok | now apply IH].
Qed.

Ltac simpl_world :=
  cbn [Spec.with_links HREFParser_links next_object resources written
       TestSuite.set_test_vectors TestSuite.test_vectors TestSuite.filename
       TestSuite.name TestSuite.codec TestSuite.description fst snd].

(** A run stores its manifest as its last step, and nothing before. *)
Lemma generate_cases (download_flag : bool) (w : World) :
  match generate urlopen download self download_flag w with
  | (Ok _, w') =>
      exists test_vectors,
        for_test_vectors self (resources w')
          (TestSuite.mk (suite_name self ++ ".json") (suite_name self)
             (codec self) (description self)
             (for_links (tl (HREFParser_links w')) []))
          (for_links (tl (HREFParser_links w')) []) = Ok test_vectors
        /\ written w'
           = (suite_name self ++ ".json",
              TestSuite.mk (suite_name self ++ ".json") (suite_name self)
                (codec self) (description self) test_vectors) :: written w
  | (Raise _, w') => written w' = written w
  end.
Proof.
  unfold generate, bind, HREFParser.new, lift, HREFParser.links, get_world,
    to_json_file, do_download, ret.
  destruct (urlopen (site self ++ name self)) as [data|e]; [|reflexivity].
  match goal with |- context [HREFParser.feed ?p data ?w1] =>
    destruct (feed_extends p data w1) as [added Hfeed];
    destruct (HREFParser.feed p data w1) as [[[]|e] w2] end;
    cbn [snd] in Hfeed; subst w2; [|reflexivity].
  destruct download_flag; simpl_world.
  - match goal with |- context [download ?ts (resources w)] =>
      destruct (download ts (resources w)) as [[[]|e] fs'] end;
      simpl_world; [|reflexivity].
    match goal with |- context [for_test_vectors self ?fs ?ts ?l] =>
      destruct (for_test_vectors self fs ts l) as [tvs|e] eqn:Hres end;
      simpl_world; [|reflexivity].
    exists tvs. split; [exact Hres | reflexivity].
  - match goal with |- context [for_test_vectors self ?fs ?ts ?l] =>
      destruct (for_test_vectors self fs ts l) as [tvs|e] eqn:Hres end;
      simpl_world; [|reflexivity].
    exists tvs. split; [exact Hres | reflexivity].
Qed.

End Orchestrator.



(** * Further properties of the script *)

(** ** The parser: errors, and feeds one after the other *)

Section FeedOutcome.

Import HREFParser.

Variable self : HREFParser.t.

Lemma all_valued_app (a b : list (option string)) :
  More.all_valued (a ++ b) = More.all_valued a && More.all_valued b.
Proof. apply forallb_app. Qed.

Lemma valued_prefix_app (a b : list (option string)) :
  More.valued_prefix (a ++ b)
  = if More.all_valued a
    then (More.valued_prefix a ++ More.valued_prefix b)%list
    else More.valued_prefix a.
Proof.
  induction a as [|[v|] a IH]; cbn; [reflexivity| |reflexivity].
  rewrite IH. fold (More.all_valued a). now destruct (More.all_valued a).
Qed.

Lemma for_attrs_outcome (l : list (string * option string)) (w : World) :
  for_attrs self l w
  = (if More.all_valued (Spec.attr_hrefs l) then Ok tt else Raise More.no_value,
     Spec.with_links
       (HREFParser_links w
        ++ map (String.append BASE_URL) (More.valued_prefix (Spec.attr_hrefs l)))
       w).
Proof.
  revert w. induction l as [|[name value] l IH]; intros w.
  - cbn. now rewrite app_nil_r, with_links_same.
  - unfold Spec.attr_hrefs in *. cbn [for_attrs filter fst].
    destruct (String.eqb name "href").
    + destruct value as [v|].
      * cbn [bind concat_value ret links_append]. rewrite IH.
        unfold Spec.with_links.
        cbn [HREFParser_links next_object resources written map snd
             More.all_valued forallb andb More.valued_prefix].
        now rewrite <- app_assoc.
      * cbn [bind concat_value raise map snd More.all_valued forallb andb
             More.valued_prefix].
        now rewrite app_nil_r, with_links_same.
    + cbn [bind ret]. apply IH.
Qed.

Lemma handle_starttag_outcome (st : starttag) (w : World) :
  handle_starttag self (tag st) (attrs st) w
  = (if More.all_valued (Spec.hrefs_of st) then Ok tt else Raise More.no_value,
     Spec.with_links
       (HREFParser_links w
        ++ map (String.append BASE_URL) (More.valued_prefix (Spec.hrefs_of st)))
       w).
Proof.
  unfold handle_starttag, Spec.hrefs_of.
  destruct (String.eqb (tag st) "a").
  - apply for_attrs_outcome.
  - cbn. now rewrite app_nil_r, with_links_same.
Qed.

Lemma feed_outcome (data : list starttag) (w : World) :
  feed self data w
  = (if More.all_valued (Spec.hrefs data) then Ok tt else Raise More.no_value,
     Spec.with_links
       (HREFParser_links w
        ++ map (String.append BASE_URL) (More.valued_prefix (Spec.hrefs data)))
       w).
Proof.
  revert w. induction data as [|st data IH]; intros w.
  - cbn. now rewrite app_nil_r, with_links_same.
  - unfold Spec.hrefs in *. cbn [feed flat_map]. unfold bind.
    rewrite handle_starttag_outcome, all_valued_app, valued_prefix_app.
    destruct (More.all_valued (Spec.hrefs_of st)); cbn [andb].
    + rewrite IH. unfold Spec.with_links.
      cbn [HREFParser_links next_object resources written].
      now rewrite map_app, app_assoc.
    + reflexivity.
Qed.

End FeedOutcome.

(** X1. A feed raises the [TypeError] of the concatenation exactly when
    an anchor of the page has an [href] without a value; whether it
    raises or not, the links of the [href]s met before that one have
    been appended to the list and stay there. *)
Theorem X1_feed_raises_on_href_without_value
    (self : HREFParser.t) (data : list starttag) (w : World) :
  HREFParser.feed self data w
  = (if More.all_valued (Spec.hrefs data) then Ok tt else Raise More.no_value,
     Spec.with_links
       (HREFParser_links w
        ++ map (String.append BASE_URL) (More.valued_prefix (Spec.hrefs data)))
       w).
Proof. apply feed_outcome. Qed.


(** ** The locator: where the file it returns lies *)

Section LocatorPaths.

Import JCTVTGenerator.

Lemma begins_with_trans (p a b : string) :
  Spec.begins_with p b -> Spec.begins_with b a -> Spec.begins_with p a.
Proof.
  intros [x ->] [y ->]. exists (y ++ x). apply append_assoc.
Qed.

Lemma path_join_begins (a b : string) :
  Py.startswith b "/" = false -> Spec.begins_with (Py.path_join a b) a.
Proof.
  intros H. unfold Py.path_join. rewrite H.
  destruct (String.eqb a "" || Py.endswith a "/"); eexists; reflexivity.
Qed.

Lemma file_paths_app (e1 e2 : list (string * list string * list string)) :
  Spec.file_paths (e1 ++ e2) = (Spec.file_paths e1 ++ Spec.file_paths e2)%list.
Proof. apply flat_map_app. Qed.

(** The paths of a traversal all begin with its top. *)
Lemma walk_under :
  forall (d : dir) (top : string),
    More.plain_names d = true ->
    Forall (fun p => Spec.begins_with p top) (Spec.file_paths (walk top d)).
Proof.
  fix IH 1. intros [files subdirs] top Hplain.
  cbn [walk]. change (?x :: ?l)%list with ([x] ++ l)%list.
  rewrite file_paths_app. apply Forall_app. split.
  - cbn [Spec.file_paths flat_map fst snd]. rewrite app_nil_r.
    apply Forall_forall. intros p Hin. apply in_map_iff in Hin.
    destruct Hin as (f & <- & _). eexists. reflexivity.
  - cbn [More.plain_names] in Hplain. revert Hplain.
    induction subdirs as [|[n d'] l IHl]; intros Hplain.
    + constructor.
    + apply andb_prop in Hplain. destruct Hplain as [Hplain Hl].
      apply andb_prop in Hplain. destruct Hplain as [Hn Hd].
      rewrite file_paths_app. apply Forall_app. split.
      * apply negb_true_iff in Hn.
        eapply Forall_impl; [|exact (IH d' (Py.path_join top n) Hd)].
        intros p Hp. apply (begins_with_trans _ _ _ Hp).
        now apply path_join_begins.
      * now apply IHl.
Qed.

Lemma find_by_ext_not_empty fs dest_dir exts excludes p :
  _find_by_ext fs dest_dir exts excludes = Some p ->
  p <> "" /\ Spec.occurs "/" p.
Proof.
  intros H. apply find_by_ext_some in H. destruct H as (b & t & Hp & _).
  assert (Hin : In p (Spec.file_paths (os_walk fs dest_dir))).
  { rewrite Hp. apply in_or_app. right. now left. }
  unfold Spec.file_paths in Hin. apply in_flat_map in Hin.
  destruct Hin as (e & _ & Hin). apply in_map_iff in Hin.
  destruct Hin as (f & <- & _). split.
  - destruct (fst (fst e)); discriminate.
  - exists (fst (fst e)), f. reflexivity.
Qed.

End LocatorPaths.

(** X3. The locator never returns the empty string, so the test of
    [generate] on the input fails only for [None]; and in a tree whose
    sub-directories have entry names, the path it returns begins with
    the directory it was asked to search. *)
Theorem X3_located_path_under_directory :
  (forall fs dest_dir exts excludes p,
      JCTVTGenerator._find_by_ext fs dest_dir exts excludes = Some p ->
      p <> "" /\ Spec.occurs "/" p)
  /\ (forall fs dest_dir exts excludes p d,
      fs_dir fs dest_dir = Some d ->
      More.plain_names d = true ->
      JCTVTGenerator._find_by_ext fs dest_dir exts excludes = Some p ->
      Spec.begins_with p dest_dir).
Proof.
  split.
  - intros fs dest_dir exts excludes p H. now apply find_by_ext_not_empty in H.
  - intros fs dest_dir exts excludes p d Hdir Hplain H.
    apply find_by_ext_some in H. destruct H as (b & t & Hp & _).
    unfold JCTVTGenerator.os_walk in Hp. rewrite Hdir in Hp.
    pose proof (walk_under d dest_dir Hplain) as Hall.
    rewrite Hp in Hall. apply Forall_app in Hall. destruct Hall as [_ Hall].
    now inversion Hall.
Qed.

Lemma X3_witness :
  Spec.begins_with "resources/JCT-VC-HEVC_V1/WP_A_Toshiba_3/WP_A_Toshiba_3.bit"
                   "resources/JCT-VC-HEVC_V1/WP_A_Toshiba_3".
Proof.
  refine (proj2 X3_located_path_under_directory Sample.hevc_disk
            "resources/JCT-VC-HEVC_V1/WP_A_Toshiba_3" BITSTREAM_EXTS None _
            (Dir ["WP_A_Toshiba_3.bit"; "WP_A_Toshiba_3.md5"] []) _ _ _).
  - reflexivity.
  - reflexivity.
  - reflexivity.
Defined.

(** ** The locator: degenerate suffixes and exclusions *)

Section LocatorEdges.

Import JCTVTGenerator.

Lemma find_ext {A} (f g : A -> bool) (l : list A) :
  (forall x, f x = g x) -> find f l = find g l.
Proof.
  intros H. induction l as [|a l IH]; [reflexivity|].
  cbn. now rewrite H, IH.
Qed.

Lemma for_excludes_exists (excludes : list string) (p : string) :
  for_excludes excludes p = existsb (fun excl => Py.contains excl p) excludes.
Proof.
  induction excludes as [|e l IH]; [reflexivity|].
  cbn. now rewrite IH.
Qed.

Lemma contains_empty (p : string) : Py.contains "" p = true.
Proof. destruct p; reflexivity. Qed.

Lemma endswith_empty (p : string) : Py.endswith p "" = true.
Proof. apply endswith_spec. exists p. now rewrite append_nil_r. Qed.

Lemma ends_with_shorter (p a suf : string) :
  Py.endswith p (a ++ suf) = true -> Py.endswith p suf = true.
Proof.
  rewrite !endswith_spec. intros [x ->]. exists (x ++ a).
  now rewrite append_assoc.
Qed.

End LocatorEdges.

(** X4. An empty string among the exclusions excludes every path, so
    nothing is found; an empty string among the suffixes accepts every
    path, so without exclusions the first file of the traversal is
    returned. *)
Theorem X4_empty_exclusion_and_empty_suffix
    (fs : Filesystem) (dest_dir : string) (exts excludes : list string) :
  (In "" excludes ->
   JCTVTGenerator._find_by_ext fs dest_dir exts (Some excludes) = None)
  /\ (In "" exts ->
      JCTVTGenerator._find_by_ext fs dest_dir exts None
      = hd_error (Spec.file_paths (JCTVTGenerator.os_walk fs dest_dir))).
Proof.
  split; intros Hin; rewrite find_by_ext_find.
  - apply find_none_iff. apply Forall_forall. intros p _.
    unfold Spec.accepts. rewrite for_excludes_exists. cbn [Spec.or_empty].
    replace (existsb (fun excl => Py.contains excl p) excludes) with true;
      [reflexivity|].
    symmetry. apply existsb_exists. exists "". split; [exact Hin|].
    apply contains_empty.
  - destruct (Spec.file_paths (JCTVTGenerator.os_walk fs dest_dir)) as [|p l];
      [reflexivity|].
    cbn [find hd_error Spec.or_empty]. unfold Spec.accepts.
    cbn [JCTVTGenerator.for_excludes negb andb]. unfold Py.endswith_any.
    replace (existsb (Py.endswith p) exts) with true; [reflexivity|].
    symmetry. apply existsb_exists. exists "". split; [exact Hin|].
    apply endswith_empty.
Qed.

Lemma X4_witness :
  JCTVTGenerator._find_by_ext Sample.hevc_disk
    "resources/JCT-VC-HEVC_V1/WP_A_Toshiba_3" MD5_EXTS (Some ["__MACOSX"; ""])
  = None
  /\ JCTVTGenerator._find_by_ext Sample.hevc_disk
       "resources/JCT-VC-HEVC_V1/WP_A_Toshiba_3" [".md5"; ""] None
     = Some "resources/JCT-VC-HEVC_V1/WP_A_Toshiba_3/WP_A_Toshiba_3.bit".
Proof.
  split.
  - refine (proj1 (X4_empty_exclusion_and_empty_suffix Sample.hevc_disk
              "resources/JCT-VC-HEVC_V1/WP_A_Toshiba_3" MD5_EXTS
              ["__MACOSX"; ""]) _).
    right. left. reflexivity.
  - refine (proj2 (X4_empty_exclusion_and_empty_suffix Sample.hevc_disk
              "resources/JCT-VC-HEVC_V1/WP_A_Toshiba_3" [".md5"; ""] []) _).
    right. left. reflexivity.
Defined.

(** X5. The suffix [yuv.md5] of the checksum search is covered by the
    suffix [.md5]: the search returns the same with and without it,
    whatever the tree and the exclusions. *)
Theorem X5_yuv_md5_suffix_is_covered
    (fs : Filesystem) (dest_dir : string) (excludes : option (list string)) :
  JCTVTGenerator._find_by_ext fs dest_dir MD5_EXTS excludes
  = JCTVTGenerator._find_by_ext fs dest_dir [".md5"; "md5.txt"] excludes.
Proof.
  rewrite !find_by_ext_find. apply find_ext. intros p.
  unfold Spec.accepts. f_equal. unfold Py.endswith_any, MD5_EXTS.
  cbn [existsb].
  destruct (Py.endswith p "yuv.md5") eqn:E; [|reflexivity].
  cbn [orb]. now rewrite (ends_with_shorter p "yuv" ".md5" E).
Qed.

(** X6. The text-checksum policy raises in two cases only: with the
    error [MD5 not found] when the directory has no path that ends with
    a checksum suffix and is free of the three exclusions; and with the
    error of the read when the checksum file it located cannot be
    read. *)
Theorem X6_md5_not_found
    (fs : Filesystem) (test_vector : TestVector.t) (dest_dir : string) :
  let paths := Spec.file_paths (JCTVTGenerator.os_walk fs dest_dir) in
  (Forall (fun p => ~ Spec.acceptable MD5_EXTS MD5_EXCLUDES p) paths ->
   JCTVTGenerator._fill_checksum_h265 fs test_vector dest_dir
   = Raise (Exception "MD5 not found"))
  /\ (forall e,
      JCTVTGenerator._fill_checksum_h265 fs test_vector dest_dir = Raise e
      <-> (Forall (fun p => ~ Spec.acceptable MD5_EXTS MD5_EXCLUDES p) paths
           /\ e = Exception "MD5 not found")
          \/ exists checksum_file,
               JCTVTGenerator._find_by_ext fs dest_dir MD5_EXTS (Some MD5_EXCLUDES)
               = Some checksum_file
               /\ fs_text fs checksum_file = Raise e).
Proof.
  cbv zeta.
  assert (Hnone :
            JCTVTGenerator._find_by_ext fs dest_dir MD5_EXTS (Some MD5_EXCLUDES) = None
            <-> Forall (fun p => ~ Spec.acceptable MD5_EXTS MD5_EXCLUDES p)
                       (Spec.file_paths (JCTVTGenerator.os_walk fs dest_dir))).
  { apply (find_by_ext_none fs dest_dir MD5_EXTS (Some MD5_EXCLUDES)). }
  unfold JCTVTGenerator._fill_checksum_h265.
  destruct (JCTVTGenerator._find_by_ext fs dest_dir MD5_EXTS (Some MD5_EXCLUDES))
    as [f|] eqn:Hf.
  - split.
    + intros H. apply Hnone in H. discriminate.
    + intros e. destruct (fs_text fs f) as [text|e'] eqn:Htext.
      * destruct (JCTVTGenerator.while_True text). split; [discriminate|].
        intros [[H _] | (f' & Hf' & H)].
        -- apply Hnone in H. discriminate.
        -- injection Hf' as <-. congruence.
      * split.
        -- intros [= <-]. right. exists f. split; [reflexivity | exact Htext].
        -- intros [[H _] | (f' & Hf' & H)].
           ++ apply Hnone in H. discriminate.
           ++ injection Hf' as <-. congruence.
  - split; [reflexivity|]. intros e. split.
    + intros [= <-]. left. split; [now apply Hnone | reflexivity].
    + intros [[_ ->] | (f' & H & _)]; [reflexivity | discriminate].
Qed.

Lemma X6_witness :
  JCTVTGenerator._fill_checksum_h265 (Sample.disk "d" ["a.bit"] "")
    Sample.vector "d"
  = Raise (Exception "MD5 not found").
Proof.
  refine (proj1 (X6_md5_not_found (Sample.disk "d" ["a.bit"] "")
            Sample.vector "d") _).
  change MD5_EXCLUDES with (Spec.or_empty (Some MD5_EXCLUDES)).
  apply find_by_ext_none. reflexivity.
Defined.

(** ** The resolution loop: its errors *)

Ltac pick_case :=
  solve [repeat split; eauto; congruence] || (left; pick_case) || (right; pick_case).

Ltac resolve_case :=
  split;
  [ intros Hr; try discriminate Hr; injection Hr as <-; pick_case
  | intros Hr; decompose [or and ex] Hr; clear Hr; subst;
    try congruence; try discriminate;
    repeat match goal with
           | H : Some _ = Some _ |- _ => injection H as H; subst
           end;
    congruence ].

Section ResolutionErrors.

Import JCTVTGenerator.

Variable self : JCTVTGenerator.t.
Variable fs : Filesystem.
Variable test_suite : TestSuite.t.

Lemma resolve_raises (tv : TestVector.t) (e : exn) :
  let dir := Spec.dest_dir (TestSuite.name test_suite) tv in
  let path := Spec.dest_path (TestSuite.name test_suite) tv in
  let located := _find_by_ext fs dir BITSTREAM_EXTS None <> None in
  let hashed := exists source_hash, fs_checksum fs path = Ok source_hash in
  resolve self fs test_suite tv = Raise e
  <-> (_find_by_ext fs dir BITSTREAM_EXTS None = None
       /\ e = Exception ("Bitstream file not found in " ++ dir))
      \/ (located /\ fs_checksum fs path = Raise e)
      \/ (located /\ hashed /\ codec self = H265
          /\ _find_by_ext fs dir MD5_EXTS (Some MD5_EXCLUDES) = None
          /\ e = Exception "MD5 not found")
      \/ (located /\ hashed /\ codec self = H265
          /\ exists checksum_file,
               _find_by_ext fs dir MD5_EXTS (Some MD5_EXCLUDES) = Some checksum_file
               /\ fs_text fs checksum_file = Raise e)
      \/ (located /\ hashed /\ codec self = H264
          /\ _find_by_ext fs dir RAW_EXTS None = None
          /\ e = Exception ("RAW file not found in " ++ dir))
      \/ (located /\ hashed /\ codec self = H264
          /\ exists raw_file,
               _find_by_ext fs dir RAW_EXTS None = Some raw_file
               /\ fs_checksum fs raw_file = Raise e).
Proof.
  cbv zeta. unfold resolve.
  fold (Spec.dest_dir (TestSuite.name test_suite) tv).
  fold (Spec.dest_path (TestSuite.name test_suite) tv).
  set (dir := Spec.dest_dir (TestSuite.name test_suite) tv).
  set (path := Spec.dest_path (TestSuite.name test_suite) tv).
  destruct (_find_by_ext fs dir BITSTREAM_EXTS None) as [found|] eqn:Hfound.
  - destruct (find_by_ext_not_empty _ _ _ _ _ Hfound) as [Hne _].
    destruct (String.eqb_spec found "") as [->|_]; [congruence|].
    destruct (fs_checksum fs path) as [hash|e0] eqn:Hhash.
    + destruct (codec self); cbn [Codec_eqb].
      * unfold _fill_checksum_h264.
        destruct (_find_by_ext fs dir RAW_EXTS None) as [raw|] eqn:Hraw.
        -- destruct (fs_checksum fs raw) as [digest|e1] eqn:Hsum; resolve_case.
        -- resolve_case.
      * unfold _fill_checksum_h265.
        destruct (_find_by_ext fs dir MD5_EXTS (Some MD5_EXCLUDES)) as [f|] eqn:Hmd5.
        -- destruct (fs_text fs f) as [text|e1] eqn:Htext;
             [destruct (while_True text)|]; resolve_case.
        -- resolve_case.
      * resolve_case.
    + resolve_case.
  - resolve_case.
Qed.

Lemma for_test_vectors_raises (l : list TestVector.t) (e : exn) :
  for_test_vectors self fs test_suite l = Raise e
  <-> exists before tv after,
        l = (before ++ tv :: after)%list
        /\ Forall (fun x => exists y, resolve self fs test_suite x = Ok y) before
        /\ resolve self fs test_suite tv = Raise e.
Proof.
  induction l as [|x l IH]; cbn [for_test_vectors].
  - split; [discriminate | intros (b & tv & a & H & _)].
    destruct b; discriminate.
  - destruct (resolve self fs test_suite x) as [y|e'] eqn:Hx.
    + destruct (for_test_vectors self fs test_suite l) as [l'|e'] eqn:Hl.
      * split; [discriminate|].
        intros (b & tv & a & H & Hb & Htv). destruct b as [|x' b].
        -- cbn in H. inversion H; subst. congruence.
        -- cbn in H. inversion H; subst. inversion Hb; subst.
           assert (Habs : @Ok (list TestVector.t) l' = Raise e); [|discriminate].
           apply IH. exists b, tv, a. auto.
      * split.
        -- intros [= <-]. destruct (proj1 (IH) eq_refl) as (b & tv & a & -> & Hb & Htv).
           exists (x :: b)%list, tv, a. repeat split; [|exact Htv].
           constructor; [now exists y | exact Hb].
        -- intros (b & tv & a & H & Hb & Htv). destruct b as [|x' b].
           ++ cbn in H. inversion H; subst. congruence.
           ++ cbn in H. inversion H; subst. inversion Hb; subst.
              apply IH. exists b, tv, a. auto.
    + split.
      * intros [= <-]. exists [], x, l. repeat split; [constructor | exact Hx].
      * intros (b & tv & a & H & Hb & Htv). destruct b as [|x' b].
        -- cbn in H. inversion H; subst. congruence.
        -- cbn in H. inversion H; subst. inversion Hb as [|? ? [y Hy] ?]; subst.
           congruence.
Qed.

End ResolutionErrors.

(** X7. The errors of the resolution of one vector, in the order the
    code meets them: no bitstream file in the directory of the vector;
    the hashing of the archive raises; for H.265, no checksum file, or
    the checksum file cannot be read; for H.264, no raw file, or the
    hashing of the raw file raises. The resolution raises in these
    cases only, and for any other codec only in the first two. *)
Theorem X7_resolution_errors
    (self : JCTVTGenerator.t) (fs : Filesystem) (test_suite : TestSuite.t)
    (tv : TestVector.t) (e : exn) :
  let dir := Spec.dest_dir (TestSuite.name test_suite) tv in
  let path := Spec.dest_path (TestSuite.name test_suite) tv in
  let located := JCTVTGenerator._find_by_ext fs dir BITSTREAM_EXTS None <> None in
  let hashed := exists source_hash, fs_checksum fs path = Ok source_hash in
  JCTVTGenerator.resolve self fs test_suite tv = Raise e
  <-> (JCTVTGenerator._find_by_ext fs dir BITSTREAM_EXTS None = None
       /\ e = Exception ("Bitstream file not found in " ++ dir))
      \/ (located /\ fs_checksum fs path = Raise e)
      \/ (located /\ hashed /\ JCTVTGenerator.codec self = H265
          /\ JCTVTGenerator._find_by_ext fs dir MD5_EXTS (Some MD5_EXCLUDES) = None
          /\ e = Exception "MD5 not found")
      \/ (located /\ hashed /\ JCTVTGenerator.codec self = H265
          /\ exists checksum_file,
               JCTVTGenerator._find_by_ext fs dir MD5_EXTS (Some MD5_EXCLUDES) = Some checksum_file
               /\ fs_text fs checksum_file = Raise e)
      \/ (located /\ hashed /\ JCTVTGenerator.codec self = H264
          /\ JCTVTGenerator._find_by_ext fs dir RAW_EXTS None = None
          /\ e = Exception ("RAW file not found in " ++ dir))
      \/ (located /\ hashed /\ JCTVTGenerator.codec self = H264
          /\ exists raw_file,
               JCTVTGenerator._find_by_ext fs dir RAW_EXTS None = Some raw_file
               /\ fs_checksum fs raw_file = Raise e).
Proof. apply resolve_raises. Qed.

(** X8. The resolution loop stops at the first vector whose resolution
    raises and raises its error: the vectors before it were resolved,
    the vectors after it are not looked at. *)
Theorem X8_resolution_stops_at_first_error
    (self : JCTVTGenerator.t) (fs : Filesystem) (test_suite : TestSuite.t)
    (l : list TestVector.t) (e : exn) :
  JCTVTGenerator.for_test_vectors self fs test_suite l = Raise e
  <-> exists before tv after,
        l = (before ++ tv :: after)%list
        /\ Forall (fun x => exists y,
                     JCTVTGenerator.resolve self fs test_suite x = Ok y) before
        /\ JCTVTGenerator.resolve self fs test_suite tv = Raise e.
Proof. apply for_test_vectors_raises. Qed.

(** ** The token the extractor stores *)

Section TokenFacts.

Import JCTVTGenerator.

Lemma upper_char_idem (c : ascii) : Py.upper_char (Py.upper_char c) = Py.upper_char c.
Proof. destruct c as [[] [] [] [] [] [] [] []]; reflexivity. Qed.

Lemma upper_idem (s : string) : Py.upper (Py.upper s) = Py.upper s.
Proof.
  induction s as [|c s IH]; [reflexivity|].
  cbn [Py.upper]. now rewrite upper_char_idem, IH.
Qed.

(** The equals sign, the space and the newline are not letters. *)
Lemma upper_char_equals (x : ascii) :
  Ascii.eqb "="%char (Py.upper_char x) = Ascii.eqb "="%char x.
Proof. destruct x as [[] [] [] [] [] [] [] []]; reflexivity. Qed.

Lemma upper_char_space (x : ascii) :
  Ascii.eqb " "%char (Py.upper_char x) = Ascii.eqb " "%char x.
Proof. destruct x as [[] [] [] [] [] [] [] []]; reflexivity. Qed.

Lemma upper_char_newline (x : ascii) :
  Ascii.eqb Py.NL_char (Py.upper_char x) = Ascii.eqb Py.NL_char x.
Proof. destruct x as [[] [] [] [] [] [] [] []]; reflexivity. Qed.

Lemma contains_char_upper (c : ascii) (s : string) :
  (forall x, Ascii.eqb c (Py.upper_char x) = Ascii.eqb c x) ->
  Py.contains (String c "") (Py.upper s) = Py.contains (String c "") s.
Proof.
  intros H. induction s as [|x s IH]; [reflexivity|].
  cbn [Py.upper]. now rewrite !contains_char_cons, H, IH.
Qed.

Lemma contains_char_before_first (c d : ascii) (s : string) :
  Py.contains (String c "") s = false ->
  Py.contains (String c "") (Spec.before_first d s) = false.
Proof.
  induction s as [|x s IH]; [reflexivity|].
  rewrite contains_char_cons. intros H. apply orb_false_elim in H.
  destruct H as [Hx Hs]. cbn [Spec.before_first].
  destruct (Ascii.eqb x d); [reflexivity|].
  now rewrite contains_char_cons, Hx, (IH Hs).
Qed.

Lemma before_first_free (c : ascii) (s : string) :
  Py.contains (String c "") (Spec.before_first c s) = false.
Proof.
  induction s as [|x s IH]; [reflexivity|].
  cbn [Spec.before_first]. destruct (Ascii.eqb x c) eqn:E; [reflexivity|].
  now rewrite contains_char_cons, Ascii.eqb_sym, E, IH.
Qed.

Lemma after_last_free (c : ascii) (s : string) :
  Py.contains (String c "") (Spec.after_last c s) = false.
Proof.
  induction s as [|x s IH]; [reflexivity|].
  cbn [Spec.after_last].
  destruct (Py.contains (String c "") s) eqn:Hs; [exact IH|].
  destruct (Ascii.eqb x c) eqn:E; [exact Hs|].
  now rewrite contains_char_cons, Ascii.eqb_sym, E, Hs.
Qed.

Lemma contains_char_lstrip (c : ascii) (s : string) :
  Py.contains (String c "") s = false ->
  Py.contains (String c "") (Py.lstrip s) = false.
Proof.
  induction s as [|x s IH]; [reflexivity|].
  intros H. cbn [Py.lstrip]. destruct (Py.isspace x); [|exact H].
  rewrite contains_char_cons in H. apply orb_false_elim in H. now apply IH.
Qed.

Lemma contains_char_rstrip (c : ascii) (s : string) :
  Py.contains (String c "") s = false ->
  Py.contains (String c "") (Py.rstrip s) = false.
Proof.
  induction s as [|x s IH]; [reflexivity|].
  rewrite contains_char_cons. intros H. apply orb_false_elim in H.
  destruct H as [Hx Hs]. cbn [Py.rstrip]. specialize (IH Hs).
  destruct (Py.rstrip s) as [|y r].
  - destruct (Py.isspace x); [reflexivity|].
    now rewrite contains_char_cons, Hx.
  - now rewrite contains_char_cons, Hx, IH.
Qed.

Lemma parse_line_token (line : string) :
  Py.upper (parse_line line) = parse_line line
  /\ Py.contains "=" (parse_line line) = false
  /\ (Py.contains "=" line = false ->
      Py.contains " " (parse_line line) = false
      /\ Py.contains Py.NL (parse_line line) = false).
Proof.
  unfold parse_line, Py.NL. rewrite !first_split, final_split.
  destruct (Py.contains "=" line) eqn:E.
  - split; [apply upper_idem|]. split; [|discriminate].
    rewrite (contains_char_upper _ _ upper_char_equals).
    apply contains_char_rstrip, contains_char_lstrip, after_last_free.
  - split; [apply upper_idem|]. split; [|intros _; split].
    + rewrite (contains_char_upper _ _ upper_char_equals).
      now apply contains_char_before_first, contains_char_before_first.
    + rewrite (contains_char_upper _ _ upper_char_space).
      apply contains_char_before_first, before_first_free.
    + rewrite (contains_char_upper _ _ upper_char_newline).
      apply before_first_free.
Qed.

Lemma line_count_line (body f : string) :
  Py.contains Py.NL body = false ->
  Spec.line_count (body ++ Py.NL ++ f) = S (Spec.line_count f).
Proof.
  unfold Py.NL. change (String Py.NL_char "" ++ f) with (String Py.NL_char f).
  induction body as [|x body IH]; intros H.
  - reflexivity.
  - rewrite contains_char_cons in H. apply orb_false_elim in H.
    destruct H as [Hx Hb]. cbn [String.append Spec.line_count].
    rewrite Ascii.eqb_sym, Hx.
    destruct body; [reflexivity | now apply IH].
Qed.

Lemma line_count_skipped (ls : list string) :
  Forall Spec.skipped_line ls ->
  Spec.line_count (Spec.join_lines ls) = length ls.
Proof.
  induction 1 as [|l ls (body & -> & Hb & _) _ IH]; [reflexivity|].
  cbn [Spec.join_lines fold_right length].
  rewrite append_assoc, (line_count_line _ _ Hb). now f_equal.
Qed.

End TokenFacts.

(** X9. Whatever the line is, the token the extractor stores is in
    upper case and has no equals sign; when the line has no equals sign
    the token has no space and no newline either. *)
Theorem X9_stored_token_shape (line : string) :
  Py.upper (JCTVTGenerator.parse_line line) = JCTVTGenerator.parse_line line
  /\ Py.contains "=" (JCTVTGenerator.parse_line line) = false
  /\ (Py.contains "=" line = false ->
      Py.contains " " (JCTVTGenerator.parse_line line) = false
      /\ Py.contains Py.NL (JCTVTGenerator.parse_line line) = false).
Proof. apply parse_line_token. Qed.

Lemma X9_witness :
  Py.contains " " (JCTVTGenerator.parse_line Sample.layout1) = false
  /\ Py.contains Py.NL (JCTVTGenerator.parse_line Sample.layout1) = false.
Proof.
  refine (proj2 (proj2 (X9_stored_token_shape Sample.layout1)) _).
  reflexivity.
Defined.

(** X10. The bound on the iterations of the scan is reached: on a file
    of blank lines and comments only, each with its newline, the scan
    runs once for every line and once more for the end of the file, and
    stores the empty token. *)
Theorem X10_scan_bound_is_reached (ls : list string) :
  Forall Spec.skipped_line ls ->
  JCTVTGenerator.while_True (Spec.join_lines ls) = ("", S (length ls))
  /\ Spec.line_count (Spec.join_lines ls) = length ls.
Proof.
  intros H. split; [|now apply line_count_skipped].
  rewrite <- (append_nil_r (Spec.join_lines ls)).
  rewrite (while_True_skips _ _ H).
  change (JCTVTGenerator.while_True "") with ("", 1). cbn [fst snd].
  f_equal. lia.
Qed.

Lemma X10_witness :
  JCTVTGenerator.while_True (Spec.join_lines Sample.comments) = ("", 3)
  /\ Spec.line_count (Spec.join_lines Sample.comments) = 2.
Proof.
  exact (X10_scan_bound_is_reached Sample.comments sample_comments_skipped).
Defined.

(** ** The manifest builder: the names it makes *)

Section BuiltVectors.

Import JCTVTGenerator.

Lemma startswith_char_contains (c : ascii) (s : string) :
  Py.contains (String c "") s = false -> Py.startswith s (String c "") = false.
Proof.
  destruct s as [|x s]; [reflexivity|].
  rewrite contains_char_cons. intros H. apply orb_false_elim in H.
  destruct H as [Hx _]. cbn [Py.startswith]. now rewrite Hx.
Qed.

Lemma placeholder_name_plain (url : string) :
  Py.contains "/" (TestVector.name (Spec.placeholder url)) = false
  /\ Py.contains "." (TestVector.name (Spec.placeholder url)) = false.
Proof.
  cbn [Spec.placeholder TestVector.name]. split.
  - apply contains_char_before_first, after_last_free.
  - apply before_first_free.
Qed.

Lemma sources_of_for_links (urls : list string) :
  map TestVector.source (for_links urls [])
  = filter (fun url => negb (Py.contains "00readme_H" url)) urls.
Proof.
  rewrite for_links_acc. cbn [app]. rewrite map_map.
  cbn [Spec.placeholder TestVector.source]. apply map_id.
Qed.

End BuiltVectors.

(** X11. The manifest builder makes at most one vector for each link
    after the first. The name of a vector has no slash and no dot, so
    the directory [generate] searches for it lies under the directory
    of the suite in [resources]. *)
Theorem X11_built_vector_names (links : list string) (suite_name : string) :
  length (JCTVTGenerator.for_links (tl links) []) <= length links - 1
  /\ Forall (fun tv =>
               Py.contains "/" (TestVector.name tv) = false
               /\ Py.contains "." (TestVector.name tv) = false
               /\ Spec.begins_with (Spec.dest_dir suite_name tv)
                                   (Py.path_join "resources" suite_name))
            (JCTVTGenerator.for_links (tl links) []).
Proof.
  rewrite for_links_acc. cbn [app]. split.
  - rewrite length_map.
    pose proof (filter_length_le
                  (fun url => negb (Py.contains "00readme_H" url)) (tl links)).
    destruct links; cbn [tl length] in *; lia.
  - apply Forall_forall. intros tv Hin. apply in_map_iff in Hin.
    destruct Hin as (url & <- & _).
    destruct (placeholder_name_plain url) as [Hslash Hdot].
    repeat split; [exact Hslash | exact Hdot |].
    unfold Spec.dest_dir. apply path_join_begins.
    now apply startswith_char_contains.
Qed.

(** ** The orchestrator: a run step by step *)

Ltac world_fields :=
  cbn [Spec.with_links HREFParser_links next_object resources written
       TestSuite.set_test_vectors TestSuite.test_vectors TestSuite.filename
       TestSuite.name TestSuite.codec TestSuite.description fst snd].

Section GenerateRun.

Import JCTVTGenerator.

Variable urlopen : string -> outcome (list starttag).
Variable download : TestSuite.t -> Filesystem -> outcome unit * Filesystem.
Variable self : JCTVTGenerator.t.

(** What a run returns and leaves, case by case. *)
Lemma generate_run (download_flag : bool) (w : World) :
  generate urlopen download self download_flag w
  = match urlopen (site self ++ name self) with
    | Raise e =>
        (Raise e,
         {| HREFParser_links := HREFParser_links w;
            next_object := S (next_object w);
            resources := resources w;
            written := written w |})
    | Ok data =>
        let links :=
          (HREFParser_links w
           ++ map (String.append BASE_URL) (More.valued_prefix (Spec.hrefs data)))%list in
        let built := for_links (tl links) [] in
        let test_suite :=
          TestSuite.mk (suite_name self ++ ".json") (suite_name self)
                       (codec self) (description self) built in
        if More.all_valued (Spec.hrefs data)
        then
          let (o, fs) :=
            if download_flag then download test_suite (resources w)
            else (Ok tt, resources w) in
          match o with
          | Raise e =>
              (Raise e,
               {| HREFParser_links := links;
                  next_object := S (next_object w);
                  resources := fs;
                  written := written w |})
          | Ok _ =>
              match for_test_vectors self fs test_suite built with
              | Raise e =>
                  (Raise e,
                   {| HREFParser_links := links;
                      next_object := S (next_object w);
                      resources := fs;
                      written := written w |})
              | Ok test_vectors =>
                  (Ok tt,
                   {| HREFParser_links := links;
                      next_object := S (next_object w);
                      resources := fs;
                      written :=
                        (suite_name self ++ ".json",
                         TestSuite.mk (suite_name self ++ ".json")
                           (suite_name self) (codec self) (description self)
                           test_vectors) :: written w |})
              end
          end
        else
          (Raise More.no_value,
           {| HREFParser_links := links;
              next_object := S (next_object w);
              resources := resources w;
              written := written w |})
    end.
Proof.
  unfold generate, bind, HREFParser.new, lift, HREFParser.links, get_world,
    to_json_file, do_download, ret.
  destruct (urlopen (site self ++ name self)) as [data|e]; [|reflexivity].
  rewrite feed_outcome. unfold TestSuite.set_test_vectors. cbv zeta.
  world_fields.
  destruct (More.all_valued (Spec.hrefs data)); [|reflexivity].
  destruct download_flag; world_fields.
  - match goal with |- context [download ?ts (resources w)] =>
      destruct (download ts (resources w)) as [[[]|e] fs'] end;
      world_fields; [|reflexivity].
    match goal with |- context [for_test_vectors self ?fs ?ts ?l] =>
      destruct (for_test_vectors self fs ts l) end; reflexivity.
  - match goal with |- context [for_test_vectors self ?fs ?ts ?l] =>
      destruct (for_test_vectors self fs ts l) end; reflexivity.
Qed.

Lemma generate_frame (download_flag : bool) (w : World) :
  let w' := snd (generate urlopen download self download_flag w) in
  (exists added, HREFParser_links w' = (HREFParser_links w ++ added)%list)
  /\ next_object w' = S (next_object w)
  /\ (download_flag = false -> resources w' = resources w)
  /\ (exists more, written w' = (more ++ written w)%list /\ length more <= 1).
Proof.
  cbv zeta. rewrite generate_run.
  destruct (urlopen (site self ++ name self)) as [data|e].
  - cbv zeta. destruct (More.all_valued (Spec.hrefs data)).
    + destruct download_flag.
      * match goal with |- context [download ?ts (resources w)] =>
          destruct (download ts (resources w)) as [[[]|e] fs'] end.
        -- match goal with |- context [for_test_vectors self ?fs ?ts ?l] =>
             destruct (for_test_vectors self fs ts l) end; cbn [snd];
             world_fields; repeat split; eauto; try discriminate;
             [eexists [_] | exists []]; split; cbn; auto.
        -- cbn [snd]. world_fields. repeat split; eauto; try discriminate.
           exists []. split; cbn; auto.
      * match goal with |- context [for_test_vectors self ?fs ?ts ?l] =>
          destruct (for_test_vectors self fs ts l) end; cbn [snd];
          world_fields; repeat split; eauto;
          [eexists [_] | exists []]; split; cbn; auto.
    + cbn [snd]. world_fields. repeat split; eauto. exists []. split; cbn; auto.
  - cbn [snd]. world_fields. repeat split; eauto.
    + exists []. now rewrite app_nil_r.
    + exists []. split; cbn; auto.
Qed.

End GenerateRun.

(** X12. Whether it returns or raises, a run of [generate] keeps every
    link that was in the list of the parser class and may add some,
    builds one parser, stores at most one manifest and removes none,
    and without the download leaves the disk resources as they are. *)
Theorem X12_generate_frame
    (urlopen : string -> outcome (list starttag))
    (download : TestSuite.t -> Filesystem -> outcome unit * Filesystem)
    (self : JCTVTGenerator.t) (download_flag : bool) (w : World) :
  let w' := snd (JCTVTGenerator.generate urlopen download self download_flag w) in
  (exists added, HREFParser_links w' = (HREFParser_links w ++ added)%list)
  /\ next_object w' = S (next_object w)
  /\ (download_flag = false -> resources w' = resources w)
  /\ (exists more, written w' = (more ++ written w)%list /\ length more <= 1).
Proof. apply generate_frame. Qed.

Lemma X12_witness :
  resources (snd (JCTVTGenerator.generate Sample.urlopen_one Sample.download
                    Sample.hevc false (Sample.fresh Sample.hevc_disk)))
  = Sample.hevc_disk.
Proof.
  exact (proj1 (proj2 (proj2 (X12_generate_frame Sample.urlopen_one
           Sample.download Sample.hevc false (Sample.fresh Sample.hevc_disk))))
           eq_refl).
Defined.

Section GenerateResults.

Import JCTVTGenerator.

Variable urlopen : string -> outcome (list starttag).
Variable download : TestSuite.t -> Filesystem -> outcome unit * Filesystem.

(** A run that returns has stored the vectors it built, resolved. *)
Lemma generate_ok (self : JCTVTGenerator.t) (download_flag : bool) (w w' : World) :
  generate urlopen download self download_flag w = (Ok tt, w') ->
  exists test_vectors,
    written w'
    = (suite_name self ++ ".json",
       TestSuite.mk (suite_name self ++ ".json") (suite_name self)
         (codec self) (description self) test_vectors) :: written w
    /\ Forall2 (Spec.resolved (codec self) (resources w') (suite_name self))
               (for_links (tl (HREFParser_links w')) []) test_vectors.
Proof.
  intros H.
  pose proof (generate_cases urlopen download self download_flag w) as Hc.
  rewrite H in Hc. destruct Hc as (tvs & Hres & Hw).
  exists tvs. split; [exact Hw|]. now apply for_test_vectors_ok in Hres.
Qed.

Lemma resolved_sources codec fs suite (built tvs : list TestVector.t) :
  Forall2 (Spec.resolved codec fs suite) built tvs ->
  map TestVector.source tvs = map TestVector.source built.
Proof.
  induction 1 as [|b tv l l' (_ & Hs & _) _ IH]; [reflexivity|].
  cbn [map]. now rewrite Hs, IH.
Qed.

Lemma tl_app_prefix {A} (l added : list A) (f : A -> bool) :
  exists extra, filter f (tl (l ++ added)) = (filter f (tl l) ++ extra)%list.
Proof.
  destruct l as [|x l].
  - eexists. reflexivity.
  - cbn [app tl]. rewrite filter_app. eexists. reflexivity.
Qed.

Lemma main_cases (skip_download : bool) (w : World) :
  (forall e w1,
      generate urlopen download Sample.hevc (negb skip_download) w = (Raise e, w1) ->
      main urlopen download skip_download w = (Raise e, w1))
  /\ (forall w2,
      main urlopen download skip_download w = (Ok tt, w2) ->
      exists hevc_suite avc_suite extra,
        written w2
        = ("JVT-AVC_V1.json", avc_suite)
            :: ("JCT-VC-HEVC_V1.json", hevc_suite) :: written w
        /\ map TestVector.source (TestSuite.test_vectors avc_suite)
           = (map TestVector.source (TestSuite.test_vectors hevc_suite)
              ++ extra)%list).
Proof.
  unfold main. fold Sample.hevc. fold Sample.avc. unfold bind. split.
  - intros e w1 H. now rewrite H.
  - intros w2 H.
    destruct (generate urlopen download Sample.hevc (negb skip_download) w)
      as [[[]|e] w1] eqn:H1; [|discriminate].
    destruct (generate_ok _ _ _ _ H1) as (tvs1 & Hw1 & Hr1).
    destruct (generate_ok _ _ _ _ H) as (tvs2 & Hw2 & Hr2).
    destruct (generate_frame urlopen download Sample.avc (negb skip_download) w1)
      as [[added Hlinks] _].
    rewrite H in Hlinks. cbn [snd] in Hlinks.
    apply resolved_sources in Hr1, Hr2.
    rewrite sources_of_for_links in Hr1, Hr2. rewrite Hlinks in Hr2.
    destruct (tl_app_prefix (HREFParser_links w1) added
                (fun url => negb (Py.contains "00readme_H" url))) as [extra He].
    do 2 eexists. exists extra. split.
    + rewrite Hw2, Hw1. reflexivity.
    + cbn [TestSuite.test_vectors]. now rewrite Hr2, Hr1, He.
Qed.

End GenerateResults.

(** X13. The two runs of the script. When the first run raises, the
    script raises the same error and the second run does not take
    place. When the script returns, it has stored the manifest of the
    first suite and then that of the second, and the vectors of the
    second manifest begin with those of the first: the second run reads
    the links of the first listing again, before its own. *)
Theorem X13_main_second_manifest_repeats_first
    (urlopen : string -> outcome (list starttag))
    (download : TestSuite.t -> Filesystem -> outcome unit * Filesystem)
    (skip_download : bool) (w : World) :
  (forall e w1,
      JCTVTGenerator.generate urlopen download Sample.hevc (negb skip_download) w
      = (Raise e, w1) ->
      JCTVTGenerator.main urlopen download skip_download w = (Raise e, w1))
  /\ (forall w2,
      JCTVTGenerator.main urlopen download skip_download w = (Ok tt, w2) ->
      exists hevc_suite avc_suite extra,
        written w2
        = ("JVT-AVC_V1.json", avc_suite)
            :: ("JCT-VC-HEVC_V1.json", hevc_suite) :: written w
        /\ map TestVector.source (TestSuite.test_vectors avc_suite)
           = (map TestVector.source (TestSuite.test_vectors hevc_suite)
              ++ extra)%list).
Proof. apply main_cases. Qed.

Lemma X13_witness :
  JCTVTGenerator.main Sample.urlopen_main Sample.download true
    (Sample.fresh More.empty_disk)
  = (Raise (Exception "Bitstream file not found in resources/JCT-VC-HEVC_V1/A_1"),
     {| HREFParser_links := [BASE_URL ++ "x/"; BASE_URL ++ "x/A_1.zip"];
        next_object := 1;
        resources := More.empty_disk;
        written := [] |})
  /\ exists hevc_suite avc_suite extra w2,
      written w2
      = [("JVT-AVC_V1.json", avc_suite); ("JCT-VC-HEVC_V1.json", hevc_suite)]
      /\ map TestVector.source (TestSuite.test_vectors avc_suite)
         = (map TestVector.source (TestSuite.test_vectors hevc_suite)
            ++ extra)%list.
Proof.
  split.
  - refine (proj1 (X13_main_second_manifest_repeats_first Sample.urlopen_main
              Sample.download true (Sample.fresh More.empty_disk)) _ _ _).
    vm_compute. reflexivity.
  - destruct (proj2 (X13_main_second_manifest_repeats_first Sample.urlopen_main
                Sample.download true (Sample.fresh More.full_disk))
                (snd (JCTVTGenerator.main Sample.urlopen_main Sample.download
                        true (Sample.fresh More.full_disk))))
      as (s1 & s2 & extra & H1 & H2).
    + vm_compute. reflexivity.
    + exists s1, s2, extra. eexists. split; [exact H1 | exact H2].
Defined.

Section ShortListing.

Import JCTVTGenerator.



Lemma resolved_other_results fs suite (built tvs : list TestVector.t) :
  Forall2 (Spec.resolved OtherCodec fs suite) built tvs ->
  map TestVector.result tvs = map TestVector.result built.
Proof.
  induction 1 as [|b tv l l' (_ & _ & _ & _ & _ & Hr) _ IH]; [reflexivity|].
  cbn [map]. now rewrite Hr, IH.
Qed.

Lemma results_of_for_links (urls : list string) :
  Forall (fun r => r = "") (map TestVector.result (for_links urls [])).
Proof.
  rewrite for_links_acc. cbn [app]. rewrite map_map.
  apply Forall_forall. intros r Hin. apply in_map_iff in Hin.
  now destruct Hin as (url & <- & _).
Qed.

End ShortListing.



(** X15. For a codec other than H.264 and H.265 no checksum policy is
    applied: a run that returns has stored a manifest in which the
    result of every vector is the empty string. *)
Theorem X15_other_codec_results_stay_empty
    (urlopen : string -> outcome (list starttag))
    (download : TestSuite.t -> Filesystem -> outcome unit * Filesystem)
    (self : JCTVTGenerator.t) (download_flag : bool) (w w' : World) :
  JCTVTGenerator.codec self = OtherCodec ->
  JCTVTGenerator.generate urlopen download self download_flag w = (Ok tt, w') ->
  exists test_suite,
    written w'
    = (JCTVTGenerator.suite_name self ++ ".json", test_suite) :: written w
    /\ Forall (fun tv => TestVector.result tv = "")
              (TestSuite.test_vectors test_suite).
Proof.
  intros Hcodec H.
  destruct (generate_ok _ _ _ _ _ _ H) as (tvs & Hw & Hr).
  eexists. split; [exact Hw|]. cbn [TestSuite.test_vectors].
  rewrite Hcodec in Hr. apply resolved_other_results in Hr.
  pose proof (results_of_for_links (tl (HREFParser_links w'))) as Hb.
  rewrite <- Hr in Hb. clear -Hb.
  induction tvs as [|tv tvs IH]; [constructor|].
  cbn [map] in Hb. inversion Hb; subst. constructor; auto.
Qed.

Lemma X15_witness :
  exists test_suite,
    written (snd (JCTVTGenerator.generate Sample.urlopen Sample.download
                    More.other false (Sample.fresh More.full_disk)))
    = [("X.json", test_suite)]
    /\ Forall (fun tv => TestVector.result tv = "")
              (TestSuite.test_vectors test_suite).
Proof.
  refine (X15_other_codec_results_stay_empty Sample.urlopen Sample.download
            More.other false (Sample.fresh More.full_disk) _ _ _).
  - reflexivity.
  - vm_compute. reflexivity.
Defined.

(** X16. A file of the searched directory itself is preferred to the
    files of its sub-directories: when one of its own files is
    acceptable, the locator returns one of its own files, whatever the
    sub-directories hold. *)
Theorem X16_own_file_preferred
    (fs : Filesystem) (dest_dir : string) (exts : list string)
    (excludes : option (list string))
    (files : list string) (subdirs : list (string * dir)) (filename : string) :
  fs_dir fs dest_dir = Some (Dir files subdirs) ->
  In filename files ->
  Spec.acceptable exts (Spec.or_empty excludes) (dest_dir ++ "/" ++ filename) ->
  exists found,
    In found files
    /\ JCTVTGenerator._find_by_ext fs dest_dir exts excludes
       = Some (dest_dir ++ "/" ++ found).
Proof.
  intros Hdir Hin Hacc.
  rewrite find_by_ext_find. unfold JCTVTGenerator.os_walk. rewrite Hdir.
  cbn [JCTVTGenerator.walk]. change (?x :: ?l)%list with ([x] ++ l)%list.
  rewrite file_paths_app, find_app.
  cbn [Spec.file_paths flat_map fst snd]. rewrite app_nil_r. unfold Py.sep.
  destruct (find (Spec.accepts exts (Spec.or_empty excludes))
                 (map (fun f => dest_dir ++ "/" ++ f) files)) as [q|] eqn:E.
  - apply find_some in E. destruct E as [Hq _].
    apply in_map_iff in Hq. destruct Hq as (f & <- & Hf).
    exists f. split; [exact Hf | reflexivity].
  - exfalso. apply accepts_spec in Hacc.
    pose proof (find_none _ _ E (dest_dir ++ "/" ++ filename)) as Hn.
    rewrite Hn in Hacc; [discriminate|].
    apply in_map_iff. exists filename. split; [reflexivity | exact Hin].
Qed.

Lemma X16_witness :
  exists found,
    In found ["a.txt"; "a.md5"]
    /\ JCTVTGenerator._find_by_ext
         {| fs_dir := fun _ => Some (Dir ["a.txt"; "a.md5"]
                                         [("s", Dir ["b.md5"] [])]);
            fs_text := fun _ => Ok "";
            fs_checksum := fun _ => Ok Sample.digest |}
         "d" MD5_EXTS (Some MD5_EXCLUDES)
       = Some ("d" ++ "/" ++ found).
Proof.
  refine (X16_own_file_preferred _ "d" MD5_EXTS (Some MD5_EXCLUDES)
            ["a.txt"; "a.md5"] [("s", Dir ["b.md5"] [])] "a.md5" _ _ _).
  - reflexivity.
  - right. left. reflexivity.
  - apply accepts_spec. reflexivity.
Defined.

(** ** The second layout: a token without blanks around it *)

Section StrippedToken.

Import JCTVTGenerator.

Lemma isspace_upper_char (c : ascii) : Py.isspace (Py.upper_char c) = Py.isspace c.
Proof. destruct c as [[] [] [] [] [] [] [] []]; reflexivity. Qed.

Lemma lstrip_upper (s : string) : Py.lstrip (Py.upper s) = Py.upper (Py.lstrip s).
Proof.
  induction s as [|c s IH]; [reflexivity|].
  cbn [Py.upper Py.lstrip]. rewrite isspace_upper_char.
  now destruct (Py.isspace c).
Qed.

Lemma rstrip_upper (s : string) : Py.rstrip (Py.upper s) = Py.upper (Py.rstrip s).
Proof.
  induction s as [|c s IH]; [reflexivity|].
  cbn [Py.upper Py.rstrip]. rewrite IH, isspace_upper_char.
  destruct (Py.rstrip s); cbn [Py.upper]; [now destruct (Py.isspace c) | reflexivity].
Qed.

Lemma rstrip_idem (s : string) : Py.rstrip (Py.rstrip s) = Py.rstrip s.
Proof.
  induction s as [|c s IH]; [reflexivity|].
  cbn [Py.rstrip]. destruct (Py.rstrip s) as [|y r] eqn:E.
  - destruct (Py.isspace c) eqn:Hc; [reflexivity|].
    cbn [Py.rstrip]. now rewrite Hc.
  - cbn [Py.rstrip]. cbn [Py.rstrip] in IH. now rewrite IH.
Qed.

Local Abbreviation head_kept := More.head_kept.

Lemma lstrip_head_kept (s : string) : head_kept (Py.lstrip s).
Proof.
  induction s as [|c s IH]; [exact I|].
  cbn [Py.lstrip]. destruct (Py.isspace c) eqn:E; [exact IH | exact E].
Qed.

Lemma rstrip_head_kept (s : string) : head_kept s -> head_kept (Py.rstrip s).
Proof.
  destruct s as [|c s]; [trivial|]. cbn [More.head_kept Py.rstrip]. intros H.
  destruct (Py.rstrip s); [now rewrite H | exact H].
Qed.

Lemma lstrip_of_head_kept (s : string) : head_kept s -> Py.lstrip s = s.
Proof.
  destruct s as [|c s]; [reflexivity|]. cbn [More.head_kept Py.lstrip].
  now intros ->.
Qed.

Lemma strip_idem (s : string) : Py.strip (Py.strip s) = Py.strip s.
Proof.
  unfold Py.strip.
  rewrite (lstrip_of_head_kept (Py.rstrip (Py.lstrip s))).
  - apply rstrip_idem.
  - apply rstrip_head_kept, lstrip_head_kept.
Qed.

Lemma strip_upper (s : string) : Py.strip (Py.upper s) = Py.upper (Py.strip s).
Proof. unfold Py.strip. now rewrite lstrip_upper, rstrip_upper. Qed.

End StrippedToken.

(** X17. When the line has an equals sign, the token the extractor
    stores has no blank at either end: stripping it again changes
    nothing. *)
Theorem X17_equals_layout_token_is_stripped (line : string) :
  Py.contains "=" line = true ->
  Py.strip (JCTVTGenerator.parse_line line) = JCTVTGenerator.parse_line line.
Proof.
  intros H. unfold JCTVTGenerator.parse_line. rewrite H.
  now rewrite strip_upper, strip_idem.
Qed.

Lemma X17_witness :
  Py.strip (JCTVTGenerator.parse_line Sample.layout2)
  = JCTVTGenerator.parse_line Sample.layout2.
Proof.
  exact (X17_equals_layout_token_is_stripped Sample.layout2 eq_refl).
Defined.
